(** * Prompt Fusion: the fusion engine and the weight resolver

    A shallow embedding of [src/core/promptFusionEngine.js] (the class
    [PromptFusionEngine]) and of the weight-determination pattern
    ([determineWeights]), with the properties the specification states
    about them.

    JavaScript numbers are IEEE 754 binary64 values and are modelled by
    Rocq's primitive floats, so sums, differences and comparisons round
    exactly as they do in the program.  JavaScript strings are sequences
    of UTF-16 code units.  A call either returns a value or throws. *)

From Stdlib Require Import ZArith NArith List Bool Lia Floats String Ascii.
From Stdlib Require Import Sorted Permutation.
Import ListNotations.
Set Warnings "-inexact-float".

(** * Part 1. The JavaScript values the program computes with *)

Module JS.

(** ** Strings *)

Definition code_unit := N.
Definition jsstring := list code_unit.

(** A string literal of the source, whose characters are all ASCII. *)
Definition lit (s : string) : jsstring :=
  List.map N_of_ascii (list_ascii_of_string s).

(** The escape [\n] of the source. *)
Definition LF : jsstring := [10%N].

(** ToBoolean on a string: only the empty string is falsy. *)
Definition truthy (s : jsstring) : bool :=
  match s with
  | [] => false
  | _ :: _ => true
  end.

Fixpoint string_eqb (s t : jsstring) : bool :=
  match s, t with
  | [], [] => true
  | c :: s', d :: t' => N.eqb c d && string_eqb s' t'
  | _, _ => false
  end.

(** WhiteSpace and LineTerminator code points, the ones
    String.prototype.trim strips. *)
Definition isWhiteSpace (c : code_unit) : bool :=
  existsb (N.eqb c)
    [9; 11; 12; 32; 160; 5760; 8239; 8287; 12288; 65279]%N
  || (8192 <=? c)%N && (c <=? 8202)%N.

Definition isLineTerminator (c : code_unit) : bool :=
  existsb (N.eqb c) [10; 13; 8232; 8233]%N.

Definition isTrimmed (c : code_unit) : bool :=
  isWhiteSpace c || isLineTerminator c.

Fixpoint trimStart (s : jsstring) : jsstring :=
  match s with
  | [] => []
  | c :: s' => if isTrimmed c then trimStart s' else s
  end.

Definition trimEnd (s : jsstring) : jsstring := rev (trimStart (rev s)).

Definition trim (s : jsstring) : jsstring := trimEnd (trimStart s).

(** ** Number::toString, radix 10 *)

Module Number.
Local Open Scope Z_scope.

Fixpoint uint_digits (u : Decimal.uint) : jsstring :=
  match u with
  | Decimal.Nil => []
  | Decimal.D0 u => 48%N :: uint_digits u
  | Decimal.D1 u => 49%N :: uint_digits u
  | Decimal.D2 u => 50%N :: uint_digits u
  | Decimal.D3 u => 51%N :: uint_digits u
  | Decimal.D4 u => 52%N :: uint_digits u
  | Decimal.D5 u => 53%N :: uint_digits u
  | Decimal.D6 u => 54%N :: uint_digits u
  | Decimal.D7 u => 55%N :: uint_digits u
  | Decimal.D8 u => 56%N :: uint_digits u
  | Decimal.D9 u => 57%N :: uint_digits u
  end.

(** Decimal digits of a non-negative integer, most significant first. *)
Definition digits (n : Z) : jsstring := uint_digits (N.to_uint (Z.to_N n)).

Fixpoint strip_zeros (r : jsstring) : jsstring :=
  match r with
  | 48%N :: r' => strip_zeros r'
  | _ => r
  end.

Definition strip_trailing_zeros (s : jsstring) : jsstring :=
  rev (strip_zeros (rev s)).

Definition zeros (n : Z) : jsstring := repeat 48%N (Z.to_nat n).

Fixpoint leading_zeros (fuel : nat) (X D : Z) (t : Z) : Z :=
  match fuel with
  | O => t
  | S fuel' => if D <=? X * 10 ^ t then t else leading_zeros fuel' X D (t + 1)
  end.

(** The integer [n] with [10^(n-1) <= X/D < 10^n], for [X/D] a positive
    binary64 value (so [n] lies between -323 and 309). *)
Definition decimal_exponent (X D : Z) : Z :=
  if D <=? X then Z.of_nat (List.length (digits (X / D)))
  else 1 - leading_zeros 400 X D 1.

Section Shortest.
(** The number is [X/D].  Every real strictly between [L/D] and [H/D]
    rounds to it, and the two ends do when [closed] (ties go to the
    even significand).  [n] is its decimal exponent. *)
Variables (X L H D : Z) (closed : bool) (n : Z).

(** The [k]-digit decimal [s * 10^(n-k)] that reads back as the number
    and is closest to it, if there is one. *)
Definition candidate (k : Z) : option Z :=
  let q := n - k in
  let lhs s := if 0 <=? q then s * 10 ^ q * D else s * D in
  let rhs V := if 0 <=? q then V else V * 10 ^ (- q) in
  let inside s :=
    if closed then (rhs L <=? lhs s) && (lhs s <=? rhs H)
    else (rhs L <? lhs s) && (lhs s <? rhs H) in
  let s_lo := if 0 <=? q then X / (D * 10 ^ q) else (X * 10 ^ (- q)) / D in
  let s_hi := s_lo + 1 in
  let d_lo := rhs X - lhs s_lo in
  let d_hi := lhs s_hi - rhs X in
  match inside s_lo, inside s_hi with
  | true, true =>
      Some (if d_lo <? d_hi then s_lo
            else if d_hi <? d_lo then s_hi
            else if Z.even s_lo then s_lo else s_hi)
  | true, false => Some s_lo
  | false, true => Some s_hi
  | false, false => None
  end.

(** The least number of digits [k] that has a candidate (17 digits
    always suffice for binary64). *)
Fixpoint shortest (fuel : nat) (k : Z) : Z * Z :=
  match fuel with
  | O => (X / D, k)
  | S fuel' =>
      match candidate k with
      | Some s => (s, k)
      | None => shortest fuel' (k + 1)
      end
  end.
End Shortest.

(** The digits of the finite positive number [m * 2^e], laid out as
    Number::toString does: plain decimal notation when the decimal
    exponent [n] is between -5 and 21, exponential notation otherwise. *)
Definition format_finite (m : positive) (e : Z) : jsstring :=
  let boundary := (Zpos m =? 2 ^ 52) && (-1074 <? e) in
  let e' := e - 2 in
  let scale := if 0 <=? e' then 2 ^ e' else 1 in
  let D := if 0 <=? e' then 1 else 2 ^ (- e') in
  let X := 4 * Zpos m * scale in
  let L := (4 * Zpos m - (if boundary then 1 else 2)) * scale in
  let H := (4 * Zpos m + 2) * scale in
  let n0 := decimal_exponent X D in
  let '(s, k0) := shortest X L H D (Z.even (Zpos m)) n0 17 1 in
  let all := digits s in
  let n := n0 + (Z.of_nat (List.length all) - k0) in
  let ds := strip_trailing_zeros all in
  let k := Z.of_nat (List.length ds) in
  if (-5 <=? n) && (n <=? 21) then
    if k <=? n then ds ++ zeros (n - k)
    else if 0 <? n then
      firstn (Z.to_nat n) ds ++ lit "." ++ skipn (Z.to_nat n) ds
    else lit "0." ++ zeros (- n) ++ ds
  else
    let ex := n - 1 in
    let sign := if 0 <? ex then lit "+" else lit "-" in
    if k =? 1 then ds ++ lit "e" ++ sign ++ digits (Z.abs ex)
    else
      firstn 1 ds ++ lit "." ++ skipn 1 ds ++ lit "e" ++ sign
        ++ digits (Z.abs ex).

Definition toString (x : float) : jsstring :=
  match Prim2SF x with
  | S754_nan => lit "NaN"
  | S754_zero _ => lit "0"
  | S754_infinity s => (if s then lit "-" else []) ++ lit "Infinity"
  | S754_finite s m e => (if s then lit "-" else []) ++ format_finite m e
  end.
End Number.

(** ** Regular expressions

    The patterns of the program are alternations of literal words with
    the flag [i] and without the flag [g], so [test] keeps no state.
    Canonicalize (without the flag [u]) never maps a code unit of 128 or
    more to one below 128, and the words are ASCII, so only the folding
    of ASCII letters can make two code units match. *)

Record RegExp := { alternatives : list jsstring; ignoreCase : bool }.

Definition canonicalize (ic : bool) (c : code_unit) : code_unit :=
  if ic && (97 <=? c)%N && (c <=? 122)%N then (c - 32)%N else c.

Fixpoint matches_here (ic : bool) (word text : jsstring) : bool :=
  match word, text with
  | [], _ => true
  | _ :: _, [] => false
  | p :: word', c :: text' =>
      N.eqb (canonicalize ic p) (canonicalize ic c)
      && matches_here ic word' text'
  end.

Definition matches_at (re : RegExp) (text : jsstring) : bool :=
  existsb (fun word => matches_here (ignoreCase re) word text)
    (alternatives re).

(** RegExp.prototype.test: is there a match starting anywhere in [text]? *)
Fixpoint test (re : RegExp) (text : jsstring) : bool :=
  matches_at re text
  || match text with
     | [] => false
     | _ :: text' => test re text'
     end.

(** ** Arrays *)

(** SortCompare: the comparator's result, with NaN read as +0. *)
Definition SortCompare {A : Type} (comparefn : A -> A -> float) (x y : A)
  : comparison :=
  let v := comparefn x y in
  if (v <? 0)%float then Lt else if (0 <? v)%float then Gt else Eq.

Fixpoint insert {A : Type} (comparefn : A -> A -> float) (x : A)
  (sorted : list A) : list A :=
  match sorted with
  | [] => [x]
  | y :: rest =>
      match SortCompare comparefn x y with
      | Gt => y :: insert comparefn x rest
      | _ => x :: sorted
      end
  end.

(** Array.prototype.sort is stable: an element moves behind exactly the
    later elements that the comparator puts strictly before it. *)
Definition sort {A : Type} (comparefn : A -> A -> float) (l : list A)
  : list A :=
  fold_right (insert comparefn) [] l.

(** Array.prototype.forEach, the callback updating the state [S] that
    it captures; [index] counts from the given number. *)
Fixpoint forEach {A S : Type} (callback : A -> float -> S -> S)
  (l : list A) (index : float) (s : S) : S :=
  match l with
  | [] => s
  | x :: l' => forEach callback l' (index + 1)%float (callback x index s)
  end.

(** [for (let i = lo; i < hi; i++) body], the body updating [S]. *)
Definition for_range {S : Type} (lo hi : nat) (body : nat -> S -> S) (s : S)
  : S :=
  fold_left (fun s i => body i s) (seq lo (hi - lo)) s.

(** ** Completions *)

Inductive exception :=
| Error (message : jsstring)
| TypeError.

Inductive completion (A : Type) :=
| Return (a : A)
| Throw (e : exception).
Arguments Return {A} a.
Arguments Throw {A} e.

(** The values a call through a looked-up property can return. *)
Inductive value :=
| VString (s : jsstring)
| VBoolean (b : bool)
| VStringObject (s : jsstring).

(** ** Objects *)

(** A destructuring default: used when the property is undefined. *)
Definition default {A : Type} (d : A) (o : option A) : A :=
  match o with
  | Some v => v
  | None => d
  end.

Fixpoint own_property {A : Type} (o : list (jsstring * A)) (key : jsstring)
  : option A :=
  match o with
  | [] => None
  | (k, v) :: o' => if string_eqb k key then Some v else own_property o' key
  end.

(** The properties every ordinary object inherits from Object.prototype. *)
Inductive ObjectPrototypeMember :=
| constructor | hasOwnProperty | isPrototypeOf | propertyIsEnumerable
| toLocaleString | toString | valueOf | proto
| defineGetter | defineSetter | lookupGetter | lookupSetter.

Definition Object_prototype : list (jsstring * ObjectPrototypeMember) :=
  [ (lit "constructor", constructor);
    (lit "hasOwnProperty", hasOwnProperty);
    (lit "isPrototypeOf", isPrototypeOf);
    (lit "propertyIsEnumerable", propertyIsEnumerable);
    (lit "toLocaleString", toLocaleString);
    (lit "toString", toString);
    (lit "valueOf", valueOf);
    (lit "__proto__", proto);
    (lit "__defineGetter__", defineGetter);
    (lit "__defineSetter__", defineSetter);
    (lit "__lookupGetter__", lookupGetter);
    (lit "__lookupSetter__", lookupSetter) ].

(** What [o[key]] evaluates to for an object literal [o]: an own
    property, else one inherited from Object.prototype, else undefined. *)
Inductive property (A : Type) :=
| Own (v : A)
| Inherited (m : ObjectPrototypeMember).
Arguments Own {A} v.
Arguments Inherited {A} m.

Definition Get {A : Type} (o : list (jsstring * A)) (key : jsstring)
  : option (property A) :=
  match own_property o key with
  | Some v => Some (Own v)
  | None =>
      match own_property Object_prototype key with
      | Some m => Some (Inherited m)
      | None => None
      end
  end.

(** Calling a member of Object.prototype as a plain function, so with
    [this] undefined, on a first argument that is a string. *)
Definition call_inherited (m : ObjectPrototypeMember) (argument : jsstring)
  : completion value :=
  match m with
  | toString => Return (VString (lit "[object Undefined]"))
  | constructor => Return (VStringObject argument)
  | isPrototypeOf => Return (VBoolean false)
  | hasOwnProperty | propertyIsEnumerable | toLocaleString | valueOf
  | defineGetter | defineSetter | lookupGetter | lookupSetter => Throw TypeError
  | proto => Throw TypeError
  end.

End JS.

(** * Part 2. The program *)

Import JS.

(** The three layers, [base], [brain] and [persona]: an object with one
    property per layer ([PromptLayers], and [WeightDistribution] when the
    properties may be absent). *)
Record PerLayer (A : Type) := { base : A; brain : A; persona : A }.
Arguments base {A} _.
Arguments brain {A} _.
Arguments persona {A} _.

Definition PromptLayers := PerLayer jsstring.

(** A [weights] object: a key that is missing reads as undefined.  The
    fusion functions are modelled on such an object; a direct call that
    passes no object at all is outside the model. *)
Definition Weights := PerLayer (option float).

(** The empty object. *)
Definition no_weights : Weights :=
  {| base := None; brain := None; persona := None |}.

Module PromptFusionEngine.
Local Open Scope float_scope.

(** weightedFusion(basePrompt, brainPrompt, personaPrompt, weights) *)
Definition weightedFusion (basePrompt brainPrompt personaPrompt : jsstring)
  (weights : Weights) : completion jsstring :=
  let baseWeight := default 0.5 (base weights) in
  let brainWeight := default 0.3 (brain weights) in
  let personaWeight := default 0.2 (persona weights) in
  let weightSum := baseWeight + brainWeight + personaWeight in
  if 0.001 <? abs (weightSum - 1.0) then
    Throw (Error (lit "Weights must sum to 1.0, got "
                    ++ Number.toString weightSum
                    ++ lit ". Please adjust weights."))
  else
    let fusedPrompt := [] in
    let fusedPrompt :=
      if truthy basePrompt && (0 <? baseWeight) then
        fusedPrompt ++ lit "[BASE_WEIGHT:" ++ Number.toString baseWeight
          ++ lit "]" ++ LF ++ basePrompt ++ LF ++ LF
      else fusedPrompt in
    let fusedPrompt :=
      if truthy brainPrompt && (0 <? brainWeight) then
        fusedPrompt ++ lit "[BRAIN_WEIGHT:" ++ Number.toString brainWeight
          ++ lit "]" ++ LF ++ brainPrompt ++ LF ++ LF
      else fusedPrompt in
    let fusedPrompt :=
      if truthy personaPrompt && (0 <? personaWeight) then
        fusedPrompt ++ lit "[PERSONA_WEIGHT:" ++ Number.toString personaWeight
          ++ lit "]" ++ LF ++ personaPrompt ++ LF ++ LF
      else fusedPrompt in
    Return (trim fusedPrompt).

(** getSemanticEmphasis(weight) *)
Definition getSemanticEmphasis (weight : float) : jsstring :=
  if 0.6 <=? weight then lit "CRITICAL PRIORITY - MUST FOLLOW"
  else if 0.4 <=? weight then lit "HIGH IMPORTANCE"
  else if 0.2 <=? weight then lit "MODERATE GUIDANCE"
  else lit "OPTIONAL CONSIDERATION".

(** The entries [{ name, weight }] of generateConflictResolutionRules. *)
Record Layer := { name : jsstring; weight : float }.

(** generateConflictResolutionRules(weights) *)
Definition generateConflictResolutionRules (weights : Weights) : jsstring :=
  let baseWeight := default 0.5 (base weights) in
  let brainWeight := default 0.3 (brain weights) in
  let personaWeight := default 0.2 (persona weights) in
  let layers :=
    sort (fun a b => weight b - weight a)
      (filter (fun l => 0 <? weight l)
         [ {| name := lit "PERSONA"; weight := personaWeight |};
           {| name := lit "BRAIN"; weight := brainWeight |};
           {| name := lit "BASE"; weight := baseWeight |} ]) in
  let rules := LF ++ lit "[CONFLICT RESOLUTION RULES]" ++ LF in
  let rules :=
    rules ++ lit "When instructions conflict, apply this priority order:"
      ++ LF in
  let rules :=
    forEach
      (fun layer index rules =>
         rules ++ Number.toString (index + 1) ++ lit ". " ++ name layer
           ++ lit " instructions (weight: " ++ Number.toString (weight layer)
           ++ lit ")" ++ LF)
      layers 0 rules in
  let rules :=
    rules ++ LF
      ++ lit "Always prioritize higher-weighted layers when resolving conflicts."
      ++ LF in
  rules.

(** semanticWeightedFusion(basePrompt, brainPrompt, personaPrompt, weights) *)
Definition semanticWeightedFusion
  (basePrompt brainPrompt personaPrompt : jsstring) (weights : Weights)
  : completion jsstring :=
  let baseWeight := default 0.5 (base weights) in
  let brainWeight := default 0.3 (brain weights) in
  let personaWeight := default 0.2 (persona weights) in
  let weightSum := baseWeight + brainWeight + personaWeight in
  if 0.001 <? abs (weightSum - 1.0) then
    Throw (Error (lit "Weights must sum to 1.0, got "
                    ++ Number.toString weightSum))
  else
    let fusedPrompt := [] in
    let fusedPrompt :=
      if truthy basePrompt && (0 <? baseWeight) then
        let emphasis := getSemanticEmphasis baseWeight in
        fusedPrompt ++ lit "[BASE LAYER - " ++ emphasis ++ lit "]" ++ LF
          ++ basePrompt ++ LF ++ LF
      else fusedPrompt in
    let fusedPrompt :=
      if truthy brainPrompt && (0 <? brainWeight) then
        let emphasis := getSemanticEmphasis brainWeight in
        fusedPrompt ++ lit "[BRAIN CONFIGURATION - " ++ emphasis ++ lit "]"
          ++ LF ++ brainPrompt ++ LF ++ LF
      else fusedPrompt in
    let fusedPrompt :=
      if truthy personaPrompt && (0 <? personaWeight) then
        let emphasis := getSemanticEmphasis personaWeight in
        fusedPrompt ++ lit "[PERSONA INSTRUCTIONS - " ++ emphasis ++ lit "]"
          ++ LF ++ personaPrompt ++ LF ++ LF
      else fusedPrompt in
    let fusedPrompt := fusedPrompt ++ generateConflictResolutionRules weights in
    Return (trim fusedPrompt).

(** The records pushed by detectConflicts. *)
Record Conflict := {
  type : jsstring;
  layer1 : jsstring;
  layer2 : jsstring;
  description : jsstring
}.

(** [opposingPatterns]: each entry is [{ pattern1, pattern2, type }]. *)
Definition opposingPatterns : list (RegExp * RegExp * jsstring) :=
  [ ({| alternatives := [lit "verbose"; lit "detailed"; lit "comprehensive"];
        ignoreCase := true |},
     {| alternatives := [lit "concise"; lit "brief"; lit "short"];
        ignoreCase := true |},
     lit "verbosity");
    ({| alternatives := [lit "formal"; lit "professional"];
        ignoreCase := true |},
     {| alternatives := [lit "casual"; lit "informal"];
        ignoreCase := true |},
     lit "tone");
    ({| alternatives := [lit "fast"; lit "quick"; lit "immediate"];
        ignoreCase := true |},
     {| alternatives := [lit "careful"; lit "thorough"; lit "deliberate"];
        ignoreCase := true |},
     lit "speed");
    ({| alternatives := [lit "creative"; lit "innovative"];
        ignoreCase := true |},
     {| alternatives := [lit "conservative"; lit "traditional"];
        ignoreCase := true |},
     lit "approach") ].

(** detectConflicts(basePrompt, brainPrompt, personaPrompt).
    [prompts[key]] and [layers[i]] read as the empty string where
    JavaScript reads undefined; both are falsy and neither is reached. *)
Definition detectConflicts (basePrompt brainPrompt personaPrompt : jsstring)
  : list Conflict :=
  let conflicts := [] in
  let prompts :=
    [ (lit "base", basePrompt); (lit "brain", brainPrompt);
      (lit "persona", personaPrompt) ] in
  let layers := List.map fst prompts in
  for_range 0 (List.length layers)
    (fun i conflicts =>
       for_range (i + 1) (List.length layers)
         (fun j conflicts =>
            let prompt1 := default [] (own_property prompts (nth i layers [])) in
            let prompt2 := default [] (own_property prompts (nth j layers [])) in
            if negb (truthy prompt1) || negb (truthy prompt2) then conflicts
            else
              forEach
                (fun '(pattern1, pattern2, type) _ conflicts =>
                   let has1in1 := test pattern1 prompt1 in
                   let has2in1 := test pattern2 prompt1 in
                   let has1in2 := test pattern1 prompt2 in
                   let has2in2 := test pattern2 prompt2 in
                   if (has1in1 && has2in2) || (has2in1 && has1in2) then
                     conflicts ++
                       [ {| type := type;
                            layer1 := nth i layers [];
                            layer2 := nth j layers [];
                            description :=
                              lit "Conflicting " ++ type
                                ++ lit " instructions between "
                                ++ nth i layers [] ++ lit " and "
                                ++ nth j layers [] |} ]
                   else conflicts)
                opposingPatterns 0 conflicts)
         conflicts)
    conflicts.

(** The functions bound into [this.fusionStrategies] by the constructor. *)
Inductive FusionStrategy := weighted | semanticWeighted.

Definition fusionStrategies : list (jsstring * FusionStrategy) :=
  [ (lit "weighted", weighted); (lit "semanticWeighted", semanticWeighted) ].

Definition call_strategy (f : FusionStrategy)
  (basePrompt brainPrompt personaPrompt : jsstring) (weights : Weights)
  : completion jsstring :=
  match f with
  | weighted => weightedFusion basePrompt brainPrompt personaPrompt weights
  | semanticWeighted =>
      semanticWeightedFusion basePrompt brainPrompt personaPrompt weights
  end.

(** fusePrompts(layers, strategy = 'semanticWeighted', weights = {}).
    [None] is an argument left out. *)
Definition fusePrompts (layers : PromptLayers) (strategy : option jsstring)
  (weights : option Weights) : completion value :=
  let strategy := default (lit "semanticWeighted") strategy in
  let weights := default no_weights weights in
  let fusionStrategy := Get fusionStrategies strategy in
  match fusionStrategy with
  | None => Throw (Error (lit "Unknown fusion strategy: " ++ strategy))
  | Some (Own f) =>
      match call_strategy f (base layers) (brain layers) (persona layers)
              weights with
      | Return s => Return (VString s)
      | Throw e => Throw e
      end
  | Some (Inherited m) => call_inherited m (base layers)
  end.

End PromptFusionEngine.

(** The weight-determination pattern. *)
Module WeightDetermination.
Local Open Scope float_scope.

(** determineWeights(personaId, personaContent); [None] is null. *)
Definition determineWeights (personaId personaContent : option jsstring)
  : Weights :=
  let hasActivePersona :=
    truthy (default [] personaId)
    && negb (string_eqb (default [] personaId) (lit "default"))
    && truthy (default [] personaContent)
    && (0 <? List.length (trim (default [] personaContent)))%nat in
  if hasActivePersona then
    {| base := Some 0.2; brain := Some 0.3; persona := Some 0.5 |}
  else
    {| base := Some 0.4; brain := Some 0.6; persona := Some 0.0 |}.

(** The [context] of determineContextualWeights; a property that is
    missing reads as undefined. *)
Record Context := {
  taskType : option jsstring;
  userRole : option jsstring;
  urgency : option jsstring
}.

(** [value === s] for a value that is a string or undefined. *)
Definition strictly_equal (value : option jsstring) (s : jsstring) : bool :=
  match value with
  | Some v => string_eqb v s
  | None => false
  end.

(** determineContextualWeights(context) *)
Definition determineContextualWeights (context : Context) : Weights :=
  let taskType := taskType context in
  let userRole := userRole context in
  let urgency := urgency context in
  if strictly_equal taskType (lit "complex_analysis") then
    {| base := Some 0.5; brain := Some 0.4; persona := Some 0.1 |}
  else if strictly_equal userRole (lit "expert") then
    {| base := Some 0.3; brain := Some 0.2; persona := Some 0.5 |}
  else {| base := Some 0.4; brain := Some 0.3; persona := Some 0.3 |}.

End WeightDetermination.

(** ** The callers of the engine *)

(** [value || fallback] for a value that is a string, null or undefined. *)
Definition or_else (value : option jsstring) (fallback : jsstring) : jsstring :=
  match value with
  | Some v => if truthy v then v else fallback
  | None => fallback
  end.

(** [src/patterns/message-modifier-fusion.js].  What is awaited is the
    value the promise settles with: a fetch either returns persona data
    (or null) or fails. *)
Module MessageModifierFusion.
Import PromptFusionEngine WeightDetermination.

(** What [getPersonaContent] resolves to: [{ id, content }]. *)
Module PersonaData.
Record t := { id : option jsstring; content : option jsstring }.
End PersonaData.

(** The [metadata] of the system message. *)
Record Metadata := {
  mode : jsstring;
  personaId : jsstring;
  fusionWeights : Weights
}.

(** A message of the conversation; [metadata] may be absent. *)
Record Message := {
  role : jsstring;
  content : jsstring;
  metadata : option Metadata
}.

(** The [options] of createFusionMessageModifier. *)
Record Options := {
  basePrompt : jsstring;
  brainPrompt : option jsstring;
  getPersonaContent :
    option (jsstring -> completion (option PersonaData.t))
}.

(** createFusionMessageModifier(options): the callback it returns, as a
    function of [messages] and of [config?.configurable?.thread_id]. *)
Definition createFusionMessageModifier (options : Options)
  : list Message -> option jsstring -> completion (list Message) :=
  let basePrompt := basePrompt options in
  let brainPrompt := brainPrompt options in
  let getPersonaContent := getPersonaContent options in
  fun messages thread_id =>
    let chatId := thread_id in
    let personaContent : option jsstring := None in
    let activePersonaId := lit "default" in
    let fetched : completion (option jsstring * jsstring) :=
      match getPersonaContent with
      | Some getPersonaContent =>
          if truthy (default [] chatId) then
            match getPersonaContent (default [] chatId) with
            | Throw e => Throw e
            | Return None => Return (personaContent, activePersonaId)
            | Return (Some personaData) =>
                Return (PersonaData.content personaData,
                        or_else (PersonaData.id personaData) (lit "default"))
            end
          else Return (personaContent, activePersonaId)
      | None => Return (personaContent, activePersonaId)
      end in
    match fetched with
    | Throw e => Throw e
    | Return (personaContent, activePersonaId) =>
        let weights := determineWeights (Some activePersonaId) personaContent in
        match semanticWeightedFusion basePrompt (or_else brainPrompt [])
                (or_else personaContent []) weights with
        | Throw e => Throw e
        | Return systemContent =>
            let systemMessage :=
              {| role := lit "system";
                 content := systemContent;
                 metadata :=
                   Some {| mode :=
                             if string_eqb activePersonaId (lit "default")
                             then lit "default" else lit "persona";
                           personaId := activePersonaId;
                           fusionWeights := weights |} |} in
            Return (systemMessage :: messages)
        end
    end.

(** createStaticFusionModifier(basePrompt, brainPrompt, personaPrompt = ''):
    the prompts are fused once, then the modifier is returned. *)
Definition createStaticFusionModifier (basePrompt brainPrompt : jsstring)
  (personaPrompt : option jsstring)
  : completion (list Message -> list Message) :=
  let personaPrompt := default [] personaPrompt in
  let weights :=
    determineWeights
      (Some (if truthy personaPrompt then lit "custom" else lit "default"))
      (Some personaPrompt) in
  match semanticWeightedFusion basePrompt brainPrompt personaPrompt weights with
  | Throw e => Throw e
  | Return fusedContent =>
      Return (fun messages =>
                {| role := lit "system"; content := fusedContent;
                   metadata := None |} :: messages)
  end.

End MessageModifierFusion.

(** [src/examples/anthropic/claude-with-fusion.ts].  The call to the
    model provider is the function [create]: given the system prompt and
    the messages it returns the text of the reply, or fails.  What
    [console.log] prints is left out. *)
Module ClaudeExample.
Import PromptFusionEngine.
Local Open Scope float_scope.

Definition baseSystemPrompt : jsstring :=
  lit "You are Claude, a helpful AI assistant by Anthropic." ++ LF
  ++ LF
  ++ lit "CORE CAPABILITIES:" ++ LF
  ++ lit "- Thoughtful analysis and reasoning" ++ LF
  ++ lit "- Clear communication" ++ LF
  ++ lit "- Ethical decision-making" ++ LF
  ++ LF
  ++ lit "OPERATING PRINCIPLES:" ++ LF
  ++ lit "- Be helpful, harmless, and honest" ++ LF
  ++ lit "- Acknowledge uncertainty" ++ LF
  ++ lit "- Respect user privacy" ++ LF
  ++ lit "- Provide citations when using specific knowledge".

Definition brainSystemPrompt : jsstring :=
  lit "CONTEXT: Research Assistant for Academic Work" ++ LF
  ++ lit "DOMAIN: Scientific Literature Analysis" ++ LF
  ++ LF
  ++ lit "CONFIGURATION:" ++ LF
  ++ lit "- Citation style: APA 7th edition" ++ LF
  ++ lit "- Reading level: Graduate/postgraduate" ++ LF
  ++ lit "- Focus: Empirical research and meta-analyses" ++ LF
  ++ lit "- Source validation: Peer-reviewed only" ++ LF
  ++ LF
  ++ lit "RESPONSE FORMAT:" ++ LF
  ++ lit "- Begin with key findings" ++ LF
  ++ lit "- Support with evidence and citations" ++ LF
  ++ lit "- Acknowledge limitations" ++ LF
  ++ lit "- Suggest further research directions".

Inductive PersonaType := methodologist | theorist.

Definition personaSystemPrompts (personaType : PersonaType) : jsstring :=
  match personaType with
  | methodologist =>
  lit "SPECIALIZED ROLE: Research Methodologist" ++ LF
  ++ LF
  ++ lit "EXPERTISE:" ++ LF
  ++ lit "- Experimental design and analysis" ++ LF
  ++ lit "- Statistical methodology" ++ LF
  ++ lit "- Research validity and reliability" ++ LF
  ++ lit "- Systematic review protocols" ++ LF
  ++ LF
  ++ lit "FOCUS AREAS:" ++ LF
  ++ lit "1. Methodological rigor assessment" ++ LF
  ++ lit "2. Statistical approach evaluation" ++ LF
  ++ lit "3. Bias and confound identification" ++ LF
  ++ lit "4. Reproducibility considerations" ++ LF
  ++ LF
  ++ lit "OUTPUT STYLE:" ++ LF
  ++ lit "- Technical precision" ++ LF
  ++ lit "- Method-focused critique" ++ LF
  ++ lit "- Quantitative emphasis" ++ LF
  ++ lit "- Design recommendations"
  | theorist =>
  lit "SPECIALIZED ROLE: Theoretical Analyst" ++ LF
  ++ LF
  ++ lit "EXPERTISE:" ++ LF
  ++ lit "- Theoretical framework analysis" ++ LF
  ++ lit "- Conceptual model development" ++ LF
  ++ lit "- Paradigm evaluation" ++ LF
  ++ lit "- Cross-disciplinary synthesis" ++ LF
  ++ LF
  ++ lit "FOCUS AREAS:" ++ LF
  ++ lit "1. Theoretical foundation assessment" ++ LF
  ++ lit "2. Conceptual coherence" ++ LF
  ++ lit "3. Framework applicability" ++ LF
  ++ lit "4. Paradigmatic assumptions" ++ LF
  ++ LF
  ++ lit "OUTPUT STYLE:" ++ LF
  ++ lit "- Abstract reasoning" ++ LF
  ++ lit "- Conceptual depth" ++ LF
  ++ lit "- Interdisciplinary connections" ++ LF
  ++ lit "- Philosophical grounding"
  end.

(** createFusedSystemPrompt(base, brain, persona = '', hasPersona = false) *)
Definition createFusedSystemPrompt (base brain : jsstring)
  (persona : option jsstring) (hasPersona : option bool)
  : completion jsstring :=
  let persona := default [] persona in
  let hasPersona := default false hasPersona in
  let weights : Weights :=
    if hasPersona && truthy persona then
      {| base := Some 0.2; brain := Some 0.3; persona := Some 0.5 |}
    else
      {| base := Some 0.4; brain := Some 0.6; persona := Some 0.0 |} in
  let fused := semanticWeightedFusion base brain persona weights in
  fused.

(** A message of the history: [{ role, content }]. *)
Record ChatMessage := { role : jsstring; content : jsstring }.

(** The fields of a ClaudeFusionChat. *)
Record ClaudeFusionChat := {
  messages : list ChatMessage;
  currentPersona : option PersonaType
}.

(** [new ClaudeFusionChat()] *)
Definition new_chat : ClaudeFusionChat :=
  {| messages := []; currentPersona := None |}.


(** send(userMessage): the new state, and the reply or the failure. *)
Definition send
  (create : jsstring -> list ChatMessage -> completion jsstring)
  (userMessage : jsstring) (this : ClaudeFusionChat)
  : ClaudeFusionChat * completion jsstring :=
  let this :=
    {| messages :=
         messages this ++ [ {| role := lit "user"; content := userMessage |} ];
       currentPersona := currentPersona this |} in
  let personaContent :=
    match currentPersona this with
    | Some p => personaSystemPrompts p
    | None => []
    end in
  match createFusedSystemPrompt baseSystemPrompt brainSystemPrompt
          (Some personaContent)
          (Some (match currentPersona this with
                 | Some _ => true
                 | None => false
                 end)) with
  | Throw e => (this, Throw e)
  | Return systemPrompt =>
      match create systemPrompt (messages this) with
      | Throw e => (this, Throw e)
      | Return assistantMessage =>
          ({| messages :=
                messages this
                  ++ [ {| role := lit "assistant";
                          content := assistantMessage |} ];
              currentPersona := currentPersona this |},
           Return assistantMessage)
      end
  end.

(** getHistory() *)
Definition getHistory (this : ClaudeFusionChat) : list ChatMessage :=
  messages this.


End ClaudeExample.

(** [src/examples/langchain/agent-with-fusion.ts]: the LangChain
    modifier and the instructions of the OpenAI agent. *)
Module AgentExample.
Import PromptFusionEngine.
Local Open Scope float_scope.

(** The messages the modifier returns: the system message it builds, and
    the messages it was given, whatever they are. *)
Inductive AgentMessage (M : Type) :=
| SystemMessage (content : jsstring)
| Given (m : M).
Arguments SystemMessage {M} content.
Arguments Given {M} m.

(** createFusionModifier(basePrompt, brainPrompt, getPersona): the
    callback it returns, as a function of [messages] and of
    [config?.configurable?.thread_id].  [getPersona] resolves to
    [{ id, content }] or null, or fails. *)
Definition createFusionModifier {M : Type} (basePrompt brainPrompt : jsstring)
  (getPersona :
     jsstring -> completion (option (option jsstring * option jsstring)))
  : list M -> option jsstring -> completion (list (AgentMessage M)) :=
  fun messages thread_id =>
    let chatId := or_else thread_id (lit "default") in
    match getPersona chatId with
    | Throw e => Throw e
    | Return personaData =>
        let personaContent :=
          match personaData with
          | Some (_, content) => or_else content []
          | None => []
          end in
        let personaId :=
          match personaData with
          | Some (id, _) => or_else id (lit "default")
          | None => lit "default"
          end in
        let weights : Weights :=
          if negb (string_eqb personaId (lit "default")) && truthy personaContent
          then
            {| base := Some 0.2; brain := Some 0.3; persona := Some 0.5 |}
          else
            {| base := Some 0.4; brain := Some 0.6; persona := Some 0.0 |} in
        match semanticWeightedFusion basePrompt brainPrompt personaContent
                weights with
        | Throw e => Throw e
        | Return fusedContent =>
            let systemMessage := SystemMessage fusedContent in
            Return (systemMessage :: List.map Given messages)
        end
    end.

(** createFusedInstructions(base, brain, persona = '', personaActive = false) *)
Definition createFusedInstructions (base brain : jsstring)
  (persona : option jsstring) (personaActive : option bool)
  : completion jsstring :=
  let persona := default [] persona in
  let personaActive := default false personaActive in
  let weights : Weights :=
    if personaActive && truthy persona then
      {| base := Some 0.2; brain := Some 0.3; persona := Some 0.5 |}
    else
      {| base := Some 0.4; brain := Some 0.6; persona := Some 0.0 |} in
  let fused := semanticWeightedFusion base brain persona weights in
  fused.

End AgentExample.

(** * Part 3. The words the properties are stated with *)

(** The order of binary64 numbers, read off an integer. *)
Module Rank.
Local Open Scope Z_scope.

(** The rank of the infinities: beyond every finite magnitude. *)
Definition top : Z := 2 ^ 2100.

(** The magnitude [m * 2^e] in units of the least subnormal, [2^-1074]. *)
Definition mag (m : positive) (e : Z) : Z := Zpos m * 2 ^ (e + 1074).

(** The signed magnitude of a number; both zeros rank 0. *)
Definition SFrank (x : spec_float) : Z :=
  match x with
  | S754_zero _ => 0
  | S754_nan => 0
  | S754_infinity s => cond_Zopp s top
  | S754_finite s m e => cond_Zopp s (mag m e)
  end.

(** [x] has the sign [s], unless it is NaN. *)
Definition signed_as (s : bool) (x : spec_float) : Prop :=
  match x with
  | S754_zero s' | S754_infinity s' | S754_finite s' _ _ => s' = s
  | S754_nan => True
  end.

(** [x] is above zero. *)
Definition positive_value (x : spec_float) : Prop :=
  match x with
  | S754_infinity false | S754_finite false _ _ => True
  | _ => False
  end.

Definition rank (x : float) : Z := SFrank (Prim2SF x).

(** [x] is not NaN. *)
Definition is_number (x : float) : Prop := Prim2SF x <> S754_nan.

End Rank.

(** The notions of the specification. *)

Module Spec.
Import PromptFusionEngine WeightDetermination.
Local Open Scope float_scope.

(** ** The weight distribution *)

(** The sum the validation of both fusion functions computes for a
    [weights] object. *)
Definition weightSum (weights : Weights) : float :=
  default 0.5 (base weights) + default 0.3 (brain weights)
  + default 0.2 (persona weights).

(** The sum is within 0.001 of 1.0. *)
Definition within_tolerance (weights : Weights) : bool :=
  abs (weightSum weights - 1.0) <=? 0.001.

(** The sum is further than 0.001 from 1.0. *)
Definition outside_tolerance (weights : Weights) : bool :=
  0.001 <? abs (weightSum weights - 1.0).

(** A [weights] object with every missing key filled in by the default
    of its destructuring pattern. *)
Definition with_defaults (weights : Weights) : Weights :=
  {| base := Some (default 0.5 (base weights));
     brain := Some (default 0.3 (brain weights));
     persona := Some (default 0.2 (persona weights)) |}.

(** ** The emphasis labels *)

Definition CRITICAL : jsstring := lit "CRITICAL PRIORITY - MUST FOLLOW".
Definition HIGH : jsstring := lit "HIGH IMPORTANCE".
Definition MODERATE : jsstring := lit "MODERATE GUIDANCE".
Definition OPTIONAL : jsstring := lit "OPTIONAL CONSIDERATION".

(** ** Layer blocks *)

(** A layer is emitted when its text is non-empty and its weight is
    above zero. *)
Definition emitted (text : jsstring) (weight : float) : bool :=
  truthy text && (0 <? weight).

(** The block of numeric fusion: the marker with the raw weight, the
    text, a blank line; nothing when the layer is not emitted. *)
Definition numeric_block (marker text : jsstring) (weight : float)
  : jsstring :=
  if emitted text weight then
    marker ++ Number.toString weight ++ lit "]" ++ LF ++ text ++ LF ++ LF
  else [].

(** The block of semantic fusion: the marker with the emphasis label. *)
Definition semantic_block (marker text : jsstring) (weight : float)
  : jsstring :=
  if emitted text weight then
    marker ++ getSemanticEmphasis weight ++ lit "]" ++ LF ++ text ++ LF ++ LF
  else [].

Definition numeric_blocks (basePrompt brainPrompt personaPrompt : jsstring)
  (weights : Weights) : jsstring :=
  numeric_block (lit "[BASE_WEIGHT:") basePrompt (default 0.5 (base weights))
  ++ numeric_block (lit "[BRAIN_WEIGHT:") brainPrompt
       (default 0.3 (brain weights))
  ++ numeric_block (lit "[PERSONA_WEIGHT:") personaPrompt
       (default 0.2 (persona weights)).

Definition semantic_blocks (basePrompt brainPrompt personaPrompt : jsstring)
  (weights : Weights) : jsstring :=
  semantic_block (lit "[BASE LAYER - ") basePrompt
    (default 0.5 (base weights))
  ++ semantic_block (lit "[BRAIN CONFIGURATION - ") brainPrompt
       (default 0.3 (brain weights))
  ++ semantic_block (lit "[PERSONA INSTRUCTIONS - ") personaPrompt
       (default 0.2 (persona weights)).

(** ** The directive *)

(** The three candidate entries, in the order the program lists them. *)
Definition entries (weights : Weights) : list Layer :=
  [ {| name := lit "PERSONA"; weight := default 0.2 (persona weights) |};
    {| name := lit "BRAIN"; weight := default 0.3 (brain weights) |};
    {| name := lit "BASE"; weight := default 0.5 (base weights) |} ].

Definition positive_weight (l : Layer) : bool := 0 <? weight l.

(** The entries the directive lists, in the order it lists them. *)
Definition priority_order (weights : Weights) : list Layer :=
  sort (fun a b => weight b - weight a)
    (filter positive_weight (entries weights)).

(** The fixed priority persona > brain > base, as a rank. *)
Definition fixed_priority (l : Layer) : nat :=
  if string_eqb (name l) (lit "PERSONA") then 0
  else if string_eqb (name l) (lit "BRAIN") then 1
  else 2.

(** [a] is listed before [b]: it weighs more, or as much and has the
    higher fixed priority. *)
Definition before (a b : Layer) : Prop :=
  (weight b <? weight a) = true
  \/ ((weight a =? weight b) = true /\ (fixed_priority a < fixed_priority b)%nat).

(** Entry number [n] of the list. *)
Definition entry (n : nat) (l : Layer) : jsstring :=
  Number.digits (Z.of_nat n) ++ lit ". " ++ name l
    ++ lit " instructions (weight: " ++ Number.toString (weight l)
    ++ lit ")" ++ LF.

Fixpoint numbered (n : nat) (l : list Layer) : jsstring :=
  match l with
  | [] => []
  | x :: l' => entry n x ++ numbered (S n) l'
  end.

(** The directive as it stands in the fused prompt. *)
Definition directive (weights : Weights) : jsstring :=
  lit "[CONFLICT RESOLUTION RULES]" ++ LF
    ++ lit "When instructions conflict, apply this priority order:" ++ LF
    ++ numbered 1 (priority_order weights) ++ LF
    ++ lit "Always prioritize higher-weighted layers when resolving conflicts.".

(** The blocks, set off from what follows by a line feed if there are any. *)
Definition separate (blocks : jsstring) : jsstring :=
  match blocks with
  | [] => []
  | _ :: _ => blocks ++ LF
  end.

Definition by_weight (a b : Layer) : float := weight b - weight a.

(** ** The weight resolver *)

(** The persona overlay is inactive: no persona id, or the id [default]. *)
Definition inactive (personaId : option jsstring) : bool :=
  match personaId with
  | None => true
  | Some id => negb (truthy id) || string_eqb id (lit "default")
  end.

(** The persona content is missing, empty or white space only. *)
Definition blank (personaContent : option jsstring) : bool :=
  match personaContent with
  | None => true
  | Some content => forallb isTrimmed content
  end.

Definition brain_dominant : Weights :=
  {| base := Some 0.4; brain := Some 0.6; persona := Some 0.0 |}.

Definition persona_dominant : Weights :=
  {| base := Some 0.2; brain := Some 0.3; persona := Some 0.5 |}.

Local Close Scope float_scope.

(** ** Trimmed text *)

(** What [trim] returns neither starts nor ends with a code unit it strips. *)
Definition trimmed (s : jsstring) : Prop :=
  (forall c t, s = c :: t -> isTrimmed c = false)
  /\ (forall c t, s = t ++ [c] -> isTrimmed c = false).

(** ** Conflict records *)

(** The record pushed for a conflict of type [ty] between the layers
    named [n1] and [n2]. *)
Definition conflict (ty n1 n2 : jsstring) : Conflict :=
  {| type := ty; layer1 := n1; layer2 := n2;
     description :=
       lit "Conflicting " ++ ty ++ lit " instructions between " ++ n1
         ++ lit " and " ++ n2 |}.

(** One text matches the first pattern and the other text the second,
    in either assignment. *)
Definition opposed (pattern1 pattern2 : RegExp) (prompt1 prompt2 : jsstring)
  : bool :=
  (test pattern1 prompt1 && test pattern2 prompt2)
  || (test pattern2 prompt1 && test pattern1 prompt2).

(** The unordered pairs of layers, each layer with its text. *)
Definition layer_pairs (basePrompt brainPrompt personaPrompt : jsstring)
  : list ((jsstring * jsstring) * (jsstring * jsstring)) :=
  [ ((lit "base", basePrompt), (lit "brain", brainPrompt));
    ((lit "base", basePrompt), (lit "persona", personaPrompt));
    ((lit "brain", brainPrompt), (lit "persona", personaPrompt)) ].

(** The records of one pair of layers. *)
Definition pair_conflicts (n1 t1 n2 t2 : jsstring) : list Conflict :=
  if truthy t1 && truthy t2 then
    flat_map
      (fun '(pattern1, pattern2, ty) =>
         if opposed pattern1 pattern2 t1 t2 then [conflict ty n1 n2] else [])
      opposingPatterns
  else [].

(** The position of a layer name in the fixed order base, brain, persona. *)
Definition position (n : jsstring) : option nat :=
  if string_eqb n (lit "base") then Some 0
  else if string_eqb n (lit "brain") then Some 1
  else if string_eqb n (lit "persona") then Some 2
  else None.

Definition precedes (n1 n2 : jsstring) : Prop :=
  match position n1, position n2 with
  | Some i, Some j => i < j
  | _, _ => False
  end.

(** What identifies a record: its two layers and its type. *)
Definition key (c : Conflict) : jsstring * jsstring * jsstring :=
  (layer1 c, layer2 c, type c).

(** Every record the function can push, each with the condition under
    which it is pushed. *)
Definition pair_candidates (n1 t1 n2 t2 : jsstring) : list (bool * Conflict) :=
  List.map
    (fun '(pattern1, pattern2, ty) =>
       (truthy t1 && truthy t2 && opposed pattern1 pattern2 t1 t2,
        conflict ty n1 n2))
    opposingPatterns.

Definition candidates (basePrompt brainPrompt personaPrompt : jsstring)
  : list (bool * Conflict) :=
  pair_candidates (lit "base") basePrompt (lit "brain") brainPrompt
  ++ pair_candidates (lit "base") basePrompt (lit "persona") personaPrompt
  ++ pair_candidates (lit "brain") brainPrompt (lit "persona") personaPrompt.

Definition selected (l : list (bool * Conflict)) : list Conflict :=
  List.map snd (filter fst l).

(** The twelve keys, whatever the texts. *)
Definition all_keys : list (jsstring * jsstring * jsstring) :=
  List.map key
    (List.map snd (candidates [] [] [])).

(** ** Further notions *)

(** The four labels, from the weakest to the strongest. *)
Definition emphasis_level (label : jsstring) : nat :=
  if string_eqb label CRITICAL then 3
  else if string_eqb label HIGH then 2
  else if string_eqb label MODERATE then 1
  else 0.

(** A text with its ASCII letters in upper case: two texts with the same
    folding differ in the case of ASCII letters only. *)
Definition fold_case (text : jsstring) : jsstring :=
  List.map (canonicalize true) text.

(** ** Conversations *)

(** The system prompt of a chat whose persona is [p]. *)
Definition system_prompt (p : option ClaudeExample.PersonaType) : jsstring :=
  let text :=
    match p with
    | Some p => ClaudeExample.personaSystemPrompts p
    | None => []
    end in
  let weights :=
    match p with
    | Some _ => persona_dominant
    | None => brain_dominant
    end in
  separate
    (semantic_blocks ClaudeExample.baseSystemPrompt
       ClaudeExample.brainSystemPrompt text weights)
  ++ directive weights.

(** The turn of a user and the turn of the assistant. *)
Definition user_turn (text : jsstring) : ClaudeExample.ChatMessage :=
  {| ClaudeExample.role := lit "user"; ClaudeExample.content := text |}.

Definition assistant_turn (text : jsstring) : ClaudeExample.ChatMessage :=
  {| ClaudeExample.role := lit "assistant"; ClaudeExample.content := text |}.



(** A history of complete exchanges: a user turn, then the assistant's,
    and so on. *)
Fixpoint alternating (l : list ClaudeExample.ChatMessage) : Prop :=
  match l with
  | [] => True
  | u :: l' =>
      match l' with
      | [] => False
      | a :: l'' =>
          ClaudeExample.role u = lit "user"
          /\ ClaudeExample.role a = lit "assistant"
          /\ alternating l''
      end
  end.

End Spec.

(** * Part 4. The order of binary64 numbers

    The comparisons of primitive floats are those of the integers
    [rank x]: a number that is not NaN is ranked by its signed magnitude
    in units of the least subnormal.  This is what makes the thresholds,
    the tolerance test and the sort comparator of the program amenable
    to integer arithmetic. *)

Module Binary64.
Import Rank.
Local Open Scope Z_scope.

Lemma digits2_pos_bounds (m : positive) :
  2 ^ (Zpos (digits2_pos m) - 1) <= Zpos m < 2 ^ Zpos (digits2_pos m).
Proof.
  induction m as [p IH | p IH | ]; cbn [digits2_pos].
  - rewrite Pos2Z.inj_succ.
    replace (Z.succ (Zpos (digits2_pos p)) - 1) with (Z.succ (Zpos (digits2_pos p) - 1)) by lia.
    rewrite !Z.pow_succ_r by lia. lia.
  - rewrite Pos2Z.inj_succ.
    replace (Z.succ (Zpos (digits2_pos p)) - 1) with (Z.succ (Zpos (digits2_pos p) - 1)) by lia.
    rewrite !Z.pow_succ_r by lia. lia.
  - cbn. lia.
Qed.

Lemma bounded_inv (m : positive) (e : Z) :
  bounded prec emax m e = true ->
  -1074 <= e <= 971 /\ Zpos (digits2_pos m) <= 53 /\
  (-1074 < e -> Zpos (digits2_pos m) = 53).
Proof.
  unfold bounded, canonical_mantissa, fexp, SpecFloat.emin, prec, emax.
  rewrite andb_true_iff, Z.eqb_eq, Z.leb_le. lia.
Qed.


Lemma mag_pos m e : bounded prec emax m e = true -> 0 < mag m e.
Proof.
  intros H. apply bounded_inv in H. unfold mag.
  apply Z.mul_pos_pos; [lia | apply Z.pow_pos_nonneg; lia].
Qed.

Lemma mag_lt_top m e : bounded prec emax m e = true -> mag m e < top.
Proof.
  intros H. apply bounded_inv in H. destruct H as [He [Hd _]].
  pose proof (digits2_pos_bounds m) as [_ Hm].
  assert (Hp : 2 ^ Zpos (digits2_pos m) <= 2 ^ 53) by (apply Z.pow_le_mono_r; lia).
  assert (Hq : 2 ^ (e + 1074) <= 2 ^ 2045) by (apply Z.pow_le_mono_r; lia).
  assert (Hq0 : 0 < 2 ^ (e + 1074)) by (apply Z.pow_pos_nonneg; lia).
  unfold mag, top. replace 2100 with (53 + 2045 + 2) by lia.
  rewrite (Z.pow_add_r 2 (53 + 2045) 2), (Z.pow_add_r 2 53 2045) by lia.
  assert (0 < 2 ^ 53) by (apply Z.pow_pos_nonneg; lia).
  assert (0 < 2 ^ 2045) by (apply Z.pow_pos_nonneg; lia).
  change (2 ^ 2) with 4.
  assert (Zpos m * 2 ^ (e + 1074) <= 2 ^ 53 * 2 ^ 2045)
    by (apply Z.mul_le_mono_nonneg; lia).
  lia.
Qed.

Lemma mag_compare m1 e1 m2 e2 :
  bounded prec emax m1 e1 = true -> bounded prec emax m2 e2 = true ->
  match e1 ?= e2 with
  | Lt => Lt
  | Gt => Gt
  | Eq => Pos.compare_cont Eq m1 m2
  end = (mag m1 e1 ?= mag m2 e2).
Proof.
  intros H1 H2. apply bounded_inv in H1, H2.
  destruct H1 as [He1 [Hd1 Hn1]], H2 as [He2 [Hd2 Hn2]].
  pose proof (digits2_pos_bounds m1) as [Hl1 Hu1].
  pose proof (digits2_pos_bounds m2) as [Hl2 Hu2].
  assert (Hp1 : 2 ^ Zpos (digits2_pos m1) <= 2 ^ 53) by (apply Z.pow_le_mono_r; lia).
  assert (Hp2 : 2 ^ Zpos (digits2_pos m2) <= 2 ^ 53) by (apply Z.pow_le_mono_r; lia).
  assert (H53 : 2 ^ 53 = 2 * 2 ^ 52) by (change 53 with (Z.succ 52); apply Z.pow_succ_r; lia).
  unfold mag. destruct (Z.compare_spec e1 e2) as [E | E | E].
  - subst e2. symmetry. change (Pos.compare_cont Eq m1 m2) with (Zpos m1 ?= Zpos m2).
    symmetry. apply Zmult_compare_compat_r. apply Z.lt_gt, Z.pow_pos_nonneg; lia.
  - symmetry. apply Z.compare_lt_iff.
    rewrite Hn2 in Hl2 by lia. change (53 - 1) with 52 in Hl2.
    replace (e2 + 1074) with ((e1 + 1074) + (e2 - e1)) by lia.
    rewrite (Z.pow_add_r 2 (e1 + 1074) (e2 - e1)) by lia.
    assert (HP : 0 < 2 ^ (e1 + 1074)) by (apply Z.pow_pos_nonneg; lia).
    assert (HQ : 2 ^ 1 <= 2 ^ (e2 - e1)) by (apply Z.pow_le_mono_r; lia).
    change (2 ^ 1) with 2 in HQ.
    assert (Hm : Zpos m1 < 2 * Zpos m2) by lia.
    generalize dependent (2 ^ (e1 + 1074)). generalize dependent (2 ^ (e2 - e1)).
    clear - Hm. intros Q HQ P HP.
    assert (0 <= Zpos m1 * P) by nia.
    assert (0 < Zpos m2 * P) by nia.
    assert (Zpos m2 * P * 2 <= Zpos m2 * P * Q) by (apply Z.mul_le_mono_nonneg_l; lia).
    nia.
  - symmetry. apply Z.compare_gt_iff.
    rewrite Hn1 in Hl1 by lia. change (53 - 1) with 52 in Hl1.
    replace (e1 + 1074) with ((e2 + 1074) + (e1 - e2)) by lia.
    rewrite (Z.pow_add_r 2 (e2 + 1074) (e1 - e2)) by lia.
    assert (HP : 0 < 2 ^ (e2 + 1074)) by (apply Z.pow_pos_nonneg; lia).
    assert (HQ : 2 ^ 1 <= 2 ^ (e1 - e2)) by (apply Z.pow_le_mono_r; lia).
    change (2 ^ 1) with 2 in HQ.
    assert (Hm : Zpos m2 < 2 * Zpos m1) by lia.
    generalize dependent (2 ^ (e2 + 1074)). generalize dependent (2 ^ (e1 - e2)).
    clear - Hm. intros Q HQ P HP.
    assert (0 <= Zpos m1 * P) by nia.
    assert (0 < Zpos m2 * P) by nia.
    assert (Zpos m2 * P * 2 <= Zpos m2 * P * Q) by (apply Z.mul_le_mono_nonneg_l; lia).
    nia.
Qed.

Lemma top_pos : 0 < top.
Proof. unfold top. apply Z.pow_pos_nonneg; lia. Qed.

Lemma compare_opp_opp a b : (- a ?= - b) = CompOpp (a ?= b).
Proof. rewrite Z.compare_opp. apply Z.compare_antisym. Qed.

Lemma SFcompare_rank (x y : spec_float) :
  valid_binary x = true -> valid_binary y = true ->
  x <> S754_nan -> y <> S754_nan ->
  SFcompare x y = Some (SFrank x ?= SFrank y).
Proof.
  pose proof top_pos as Ht.
  destruct x as [sx | sx | | sx mx ex], y as [sy | sy | | sy my ey];
    try congruence; cbn [valid_binary]; intros Vx Vy _ _;
    try (pose proof (mag_pos _ _ Vx); pose proof (mag_lt_top _ _ Vx));
    try (pose proof (mag_pos _ _ Vy); pose proof (mag_lt_top _ _ Vy));
    try destruct sx; try destruct sy; cbn [SFcompare SFrank cond_Zopp]; f_equal;
    try (rewrite (mag_compare _ _ _ _ Vx Vy); reflexivity);
    try (symmetry; first [ apply Z.compare_eq_iff; lia
                         | apply Z.compare_lt_iff; lia
                         | apply Z.compare_gt_iff; lia ]).
  rewrite compare_opp_opp, <- (mag_compare _ _ _ _ Vx Vy).
  destruct (ex ?= ey); reflexivity.
Qed.

(** Shifting right keeps a positive mantissa positive as long as fewer bits
    are dropped than the mantissa has. *)
Lemma shr_1_lower (r : shr_record) (k : Z) :
  0 <= k -> 2 * k <= shr_m r -> k <= shr_m (shr_1 r).
Proof.
  destruct r as [m b s]. cbn [shr_m]. intros Hk H.
  destruct m as [ | [p | p | ] | p]; cbn; lia.
Qed.

Lemma iter_shr_1_lower (p : positive) :
  forall (r : shr_record) (k : Z),
    0 <= k -> 2 ^ Zpos p * k <= shr_m r -> k <= shr_m (iter_pos shr_1 p r).
Proof.
  induction p as [p IH | p IH | ]; intros r k Hk H; cbn [iter_pos].
  - assert (Hp : 0 < 2 ^ Zpos p) by (apply Z.pow_pos_nonneg; lia).
    replace (Zpos p~1) with (Zpos p + Zpos p + 1) in H by lia.
    rewrite !Z.pow_add_r in H by lia. change (2 ^ 1) with 2 in H.
    apply IH; [lia|]. apply IH; [nia|]. apply shr_1_lower; nia.
  - assert (Hp : 0 < 2 ^ Zpos p) by (apply Z.pow_pos_nonneg; lia).
    replace (Zpos p~0) with (Zpos p + Zpos p) in H by lia.
    rewrite Z.pow_add_r in H by lia.
    apply IH; [lia|]. apply IH; [nia|]. nia.
  - apply shr_1_lower; [lia|]. change (2 ^ 1) with 2 in H. lia.
Qed.

Lemma shr_m_of_loc m l : shr_m (shr_record_of_loc m l) = m.
Proof. destruct l as [ | [ | | ]]; reflexivity. Qed.

Lemma shr_fexp_pos (m e : Z) (l : location) :
  0 < m -> -1074 <= e ->
  0 < shr_m (fst (shr_fexp prec emax m e l)) /\
  -1074 <= snd (shr_fexp prec emax m e l).
Proof.
  intros Hm He. unfold shr_fexp, shr.
  destruct m as [ | p | p]; try lia. cbn [Zdigits2].
  pose proof (digits2_pos_bounds p) as [Hl _].
  destruct (fexp prec emax (Zpos (digits2_pos p) + e) - e) as [ | n | n] eqn:En;
    cbn [fst snd]; rewrite ?shr_m_of_loc; try (split; lia).
  unfold fexp, SpecFloat.emin, prec, emax in En.
  split; [|lia].
  assert (Hn : Zpos n <= Zpos (digits2_pos p) - 1) by lia.
  assert (1 <= shr_m (iter_pos shr_1 n (shr_record_of_loc (Zpos p) l))); [|lia].
  apply iter_shr_1_lower; [lia|]. rewrite shr_m_of_loc, Z.mul_1_r.
  transitivity (2 ^ (Zpos (digits2_pos p) - 1)); [|exact Hl].
  apply Z.pow_le_mono_r; lia.
Qed.

Lemma round_nearest_even_ge m l : m <= round_nearest_even m l.
Proof.
  destruct l as [ | [ | | ]]; cbn; try lia. destruct (Z.even m); lia.
Qed.

Lemma binary_round_aux_signed sx mx ex lx :
  signed_as sx (binary_round_aux prec emax sx mx ex lx).
Proof.
  unfold binary_round_aux.
  destruct (shr_fexp prec emax mx ex lx) as [r1 e1].
  destruct (shr_fexp prec emax _ e1 loc_Exact) as [r2 e2].
  destruct (shr_m r2); cbn; auto. destruct (e2 <=? 971); cbn; auto.
Qed.

Lemma binary_round_aux_pos mx ex lx :
  0 < mx -> -1074 <= ex ->
  positive_value (binary_round_aux prec emax false mx ex lx).
Proof.
  intros Hm He. unfold binary_round_aux.
  pose proof (shr_fexp_pos mx ex lx Hm He) as H1.
  destruct (shr_fexp prec emax mx ex lx) as [r1 e1]. cbn [fst snd] in H1.
  destruct H1 as [Hr1 He1].
  pose proof (round_nearest_even_ge (shr_m r1) (loc_of_shr_record r1)) as Hr.
  pose proof (shr_fexp_pos (round_nearest_even (shr_m r1) (loc_of_shr_record r1))
                e1 loc_Exact ltac:(lia) He1) as H2.
  destruct (shr_fexp prec emax _ e1 loc_Exact) as [r2 e2]. cbn [fst snd] in H2.
  destruct (shr_m r2); try lia. destruct (e2 <=? emax - prec); exact I.
Qed.

Lemma shl_align_value (m : positive) (e e' : Z) :
  e' <= e -> Zpos (fst (shl_align m e e')) = Zpos m * 2 ^ (e - e').
Proof.
  intros H. unfold shl_align.
  destruct (e' - e) as [ | d | d] eqn:Ed; cbn [fst]; try lia.
  - replace (e - e') with 0 by lia. lia.
  - replace (e - e') with (Zpos d) by lia.
    rewrite (Pos.iter_swap_gen _ _ Zpos xO (Z.mul 2)) by reflexivity.
    rewrite <- Z.shiftl_mul_pow2 by lia. reflexivity.
Qed.

Lemma binary_round_pos (m : positive) (e : Z) :
  -1074 <= e -> positive_value (binary_round prec emax false m e).
Proof.
  intros He. unfold binary_round.
  destruct (shl_align m e (fexp prec emax (Zpos (digits2_pos m) + e))) as [mz ez] eqn:E.
  apply binary_round_aux_pos; [lia|].
  unfold shl_align in E.
  destruct (fexp prec emax (Zpos (digits2_pos m) + e) - e) eqn:En;
    inversion E; subst; try lia.
  unfold fexp, SpecFloat.emin, prec, emax. lia.
Qed.

Lemma binary_round_signed s m e : signed_as s (binary_round prec emax s m e).
Proof.
  unfold binary_round. destruct (shl_align m e _) as [mz ez].
  apply binary_round_aux_signed.
Qed.

Lemma SFltb_zero_positive x : positive_value x -> SFltb (S754_zero false) x = true.
Proof. destruct x as [ | [] | | [] ? ?]; cbn; intuition. Qed.

Lemma SFltb_zero_negative x : signed_as true x -> SFltb (S754_zero false) x = false.
Proof. destruct x as [ | [] | | [] ? ?]; cbn; intuition congruence. Qed.

(** The sign of a floating-point difference of two positive numbers is the
    sign of the exact difference: rounding never reaches zero. *)
Lemma SFsub_positive_sign (x y : spec_float) :
  valid_binary x = true -> valid_binary y = true ->
  positive_value x -> positive_value y ->
  SFltb (S754_zero false) (SF64sub y x) = (SFrank x <? SFrank y).
Proof.
  pose proof top_pos as Ht.
  destruct x as [ | [] | | [] mx ex], y as [ | [] | | [] my ey];
    cbn [positive_value valid_binary];
    try (intros _ _ Hx Hy; solve [exfalso; exact Hx | exfalso; exact Hy]);
    intros Vx Vy _ _.
  - unfold SF64sub. cbn [SFsub SFltb SFcompare SFrank cond_Zopp].
    symmetry. apply Z.ltb_irrefl.
  - unfold SF64sub. cbn [SFsub SFltb SFcompare SFrank cond_Zopp negb].
    pose proof (mag_lt_top _ _ Vy). symmetry. apply Z.ltb_ge. lia.
  - unfold SF64sub. cbn [SFsub SFltb SFcompare SFrank cond_Zopp].
    pose proof (mag_lt_top _ _ Vx). symmetry. apply Z.ltb_lt. lia.
  - pose proof (bounded_inv _ _ Vx) as [Hex _].
    pose proof (bounded_inv _ _ Vy) as [Hey _].
    unfold SF64sub, SFsub. cbn [cond_Zopp SFrank].
    rewrite !shl_align_value by lia.
    set (ez := Z.min ey ex).
    assert (Hmx : mag mx ex = Zpos mx * 2 ^ (ex - ez) * 2 ^ (ez + 1074)).
    { unfold mag. rewrite <- Z.mul_assoc, <- Z.pow_add_r by lia. do 2 f_equal. lia. }
    assert (Hmy : mag my ey = Zpos my * 2 ^ (ey - ez) * 2 ^ (ez + 1074)).
    { unfold mag. rewrite <- Z.mul_assoc, <- Z.pow_add_r by lia. do 2 f_equal. lia. }
    assert (Hz : 0 < 2 ^ (ez + 1074)) by (apply Z.pow_pos_nonneg; lia).
    rewrite Hmx, Hmy.
    generalize dependent (2 ^ (ez + 1074)). intros P _ _ HP.
    generalize (Zpos my * 2 ^ (ey - ez)) (Zpos mx * 2 ^ (ex - ez)). intros a b.
    destruct (a - b) as [ | d | d] eqn:Ed; cbn [binary_normalize].
    + cbn [SFltb SFcompare]. symmetry. apply Z.ltb_ge. nia.
    + rewrite SFltb_zero_positive by (apply binary_round_pos; lia).
      symmetry. apply Z.ltb_lt. nia.
    + rewrite SFltb_zero_negative by apply binary_round_signed.
      symmetry. apply Z.ltb_ge. nia.
Qed.

(** ** Primitive floats *)

Lemma nan_dec (x : spec_float) : {x = S754_nan} + {x <> S754_nan}.
Proof. destruct x; (left; reflexivity) || (right; discriminate). Qed.

Lemma SFcompare_nan_l y : SFcompare S754_nan y = None.
Proof. reflexivity. Qed.

Lemma SFcompare_nan_r x : SFcompare x S754_nan = None.
Proof. destruct x; reflexivity. Qed.

Lemma compare_numbers (x y : float) :
  is_number x -> is_number y ->
  SFcompare (Prim2SF x) (Prim2SF y) = Some (rank x ?= rank y).
Proof.
  intros Hx Hy. apply SFcompare_rank; auto using Prim2SF_valid.
Qed.

Lemma compare_not_numbers (x y : float) :
  ~ (is_number x /\ is_number y) -> SFcompare (Prim2SF x) (Prim2SF y) = None.
Proof.
  unfold is_number. intros H.
  destruct (nan_dec (Prim2SF x)) as [E | E]; [rewrite E; apply SFcompare_nan_l|].
  destruct (nan_dec (Prim2SF y)) as [E' | E']; [rewrite E'; apply SFcompare_nan_r|].
  tauto.
Qed.

Lemma ltb_numbers x y :
  is_number x -> is_number y -> (x <? y)%float = (rank x <? rank y).
Proof.
  intros Hx Hy. rewrite FloatAxioms.ltb_spec. unfold SFltb, Z.ltb.
  rewrite (compare_numbers x y Hx Hy). destruct (rank x ?= rank y); reflexivity.
Qed.

Lemma leb_numbers x y :
  is_number x -> is_number y -> (x <=? y)%float = (rank x <=? rank y).
Proof.
  intros Hx Hy. rewrite FloatAxioms.leb_spec. unfold SFleb, Z.leb.
  rewrite (compare_numbers x y Hx Hy). destruct (rank x ?= rank y); reflexivity.
Qed.

Lemma eqb_numbers x y :
  is_number x -> is_number y -> (x =? y)%float = (rank x =? rank y).
Proof.
  intros Hx Hy. rewrite FloatAxioms.eqb_spec. unfold SFeqb.
  rewrite (compare_numbers x y Hx Hy).
  destruct (Z.compare_spec (rank x) (rank y)); symmetry;
    [apply Z.eqb_eq | apply Z.eqb_neq | apply Z.eqb_neq]; lia.
Qed.

Lemma ltb_true_numbers x y : (x <? y)%float = true -> is_number x /\ is_number y.
Proof.
  rewrite FloatAxioms.ltb_spec. unfold SFltb, is_number. intros H.
  destruct (nan_dec (Prim2SF x)) as [E | E];
    [rewrite E, SFcompare_nan_l in H; discriminate|].
  destruct (nan_dec (Prim2SF y)) as [E' | E'];
    [rewrite E', SFcompare_nan_r in H; discriminate|].
  auto.
Qed.

Lemma leb_true_numbers x y : (x <=? y)%float = true -> is_number x /\ is_number y.
Proof.
  rewrite FloatAxioms.leb_spec. unfold SFleb, is_number. intros H.
  destruct (nan_dec (Prim2SF x)) as [E | E];
    [rewrite E, SFcompare_nan_l in H; discriminate|].
  destruct (nan_dec (Prim2SF y)) as [E' | E'];
    [rewrite E', SFcompare_nan_r in H; discriminate|].
  auto.
Qed.

Lemma eqb_true_numbers x y : (x =? y)%float = true -> is_number x /\ is_number y.
Proof.
  rewrite FloatAxioms.eqb_spec. unfold SFeqb, is_number. intros H.
  destruct (nan_dec (Prim2SF x)) as [E | E];
    [rewrite E, SFcompare_nan_l in H; discriminate|].
  destruct (nan_dec (Prim2SF y)) as [E' | E'];
    [rewrite E', SFcompare_nan_r in H; discriminate|].
  auto.
Qed.

Lemma ltb_true_iff x y :
  (x <? y)%float = true <-> is_number x /\ is_number y /\ rank x < rank y.
Proof.
  split.
  - intros H. destruct (ltb_true_numbers _ _ H) as [Hx Hy].
    rewrite (ltb_numbers _ _ Hx Hy) in H. apply Z.ltb_lt in H. auto.
  - intros (Hx & Hy & H). rewrite (ltb_numbers _ _ Hx Hy). apply Z.ltb_lt, H.
Qed.

Lemma leb_true_iff x y :
  (x <=? y)%float = true <-> is_number x /\ is_number y /\ rank x <= rank y.
Proof.
  split.
  - intros H. destruct (leb_true_numbers _ _ H) as [Hx Hy].
    rewrite (leb_numbers _ _ Hx Hy) in H. apply Z.leb_le in H. auto.
  - intros (Hx & Hy & H). rewrite (leb_numbers _ _ Hx Hy). apply Z.leb_le, H.
Qed.

Lemma eqb_true_iff x y :
  (x =? y)%float = true <-> is_number x /\ is_number y /\ rank x = rank y.
Proof.
  split.
  - intros H. destruct (eqb_true_numbers _ _ H) as [Hx Hy].
    rewrite (eqb_numbers _ _ Hx Hy) in H. apply Z.eqb_eq in H. auto.
  - intros (Hx & Hy & H). rewrite (eqb_numbers _ _ Hx Hy). apply Z.eqb_eq, H.
Qed.

Lemma rank_zero : rank 0%float = 0.
Proof. reflexivity. Qed.

Lemma zero_is_number : is_number 0%float.
Proof. unfold is_number. cbv. discriminate. Qed.

Lemma positive_iff x : (0 <? x)%float = true <-> is_number x /\ 0 < rank x.
Proof.
  rewrite ltb_true_iff, rank_zero. pose proof zero_is_number. tauto.
Qed.

Lemma positive_Prim2SF x : (0 <? x)%float = true -> positive_value (Prim2SF x).
Proof.
  intros H. apply positive_iff in H. destruct H as [Hn Hr].
  unfold rank, is_number in *. pose proof (Prim2SF_valid x) as V.
  pose proof top_pos.
  destruct (Prim2SF x) as [ | [] | | [] m e]; cbn [SFrank cond_Zopp positive_value] in *;
    try lia; try congruence; auto.
  pose proof (mag_pos _ _ V). lia.
Qed.

(** [b - a > 0] exactly when [a < b], for positive [a] and [b]. *)
Lemma sub_positive_sign (x y : float) :
  (0 <? x)%float = true -> (0 <? y)%float = true ->
  (0 <? y - x)%float = (x <? y)%float.
Proof.
  intros Hx Hy.
  rewrite (ltb_numbers x y) by (apply positive_iff; assumption).
  rewrite FloatAxioms.ltb_spec, FloatAxioms.sub_spec.
  change (Prim2SF 0) with (S754_zero false).
  apply SFsub_positive_sign; auto using Prim2SF_valid, positive_Prim2SF.
Qed.

Lemma ltb_leb_false x y : (x <? y)%float = true -> (y <=? x)%float = false.
Proof.
  intros H. apply ltb_true_iff in H. destruct H as (Hx & Hy & H).
  rewrite (leb_numbers _ _ Hy Hx). apply Z.leb_gt. exact H.
Qed.

Lemma leb_ltb_false x y : (x <=? y)%float = true -> (y <? x)%float = false.
Proof.
  intros H. apply leb_true_iff in H. destruct H as (Hx & Hy & H).
  rewrite (ltb_numbers _ _ Hy Hx). apply Z.ltb_ge. exact H.
Qed.

Lemma ltb_asym x y : (x <? y)%float = true -> (y <? x)%float = false.
Proof.
  intros H. apply ltb_true_iff in H. destruct H as (Hx & Hy & H).
  rewrite (ltb_numbers _ _ Hy Hx). apply Z.ltb_ge. lia.
Qed.

Lemma ltb_leb_trans x y z :
  (x <? y)%float = true -> (y <=? z)%float = true -> (x <? z)%float = true.
Proof.
  intros H1 H2. apply ltb_true_iff in H1. apply leb_true_iff in H2.
  apply ltb_true_iff. intuition lia.
Qed.

Lemma leb_trans x y z :
  (x <=? y)%float = true -> (y <=? z)%float = true -> (x <=? z)%float = true.
Proof.
  intros H1 H2. apply leb_true_iff in H1. apply leb_true_iff in H2.
  apply leb_true_iff. intuition lia.
Qed.

(** ** Differences and absolute values of numbers are numbers *)

Lemma shr_fexp_nonneg (m e : Z) (l : location) :
  0 <= m -> 0 <= shr_m (fst (shr_fexp prec emax m e l)).
Proof.
  intros Hm. unfold shr_fexp, shr.
  destruct (fexp prec emax (Zdigits2 m + e) - e) as [ | n | n];
    cbn [fst]; rewrite ?shr_m_of_loc; try exact Hm.
  apply iter_shr_1_lower; [lia|]. rewrite shr_m_of_loc. lia.
Qed.

Lemma binary_round_aux_number sx mx ex lx :
  0 <= mx -> binary_round_aux prec emax sx mx ex lx <> S754_nan.
Proof.
  intros Hm. unfold binary_round_aux.
  pose proof (shr_fexp_nonneg mx ex lx Hm) as H1.
  destruct (shr_fexp prec emax mx ex lx) as [r1 e1]. cbn [fst] in H1.
  pose proof (round_nearest_even_ge (shr_m r1) (loc_of_shr_record r1)) as Hr.
  pose proof (shr_fexp_nonneg
                (round_nearest_even (shr_m r1) (loc_of_shr_record r1))
                e1 loc_Exact ltac:(lia)) as H2.
  destruct (shr_fexp prec emax _ e1 loc_Exact) as [r2 e2]. cbn [fst] in H2.
  destruct (shr_m r2); try lia; [discriminate|].
  destruct (e2 <=? emax - prec); discriminate.
Qed.

Lemma binary_normalize_number m e szero :
  binary_normalize prec emax m e szero <> S754_nan.
Proof.
  unfold binary_normalize, binary_round. destruct m as [ | p | p].
  - discriminate.
  - destruct (shl_align p e _) as [mz ez]. apply binary_round_aux_number. lia.
  - destruct (shl_align p e _) as [mz ez]. apply binary_round_aux_number. lia.
Qed.

(** Subtracting a finite number from a number gives a number. *)
Lemma SFsub_finite_number (x : spec_float) (s : bool) (m : positive) (e : Z) :
  x <> S754_nan -> SF64sub x (S754_finite s m e) <> S754_nan.
Proof.
  unfold SF64sub. destruct x as [sx | sx | | sx mx ex]; cbn [SFsub];
    try congruence; try discriminate.
  intros _. apply binary_normalize_number.
Qed.

Lemma sub_one_number (x : float) : is_number x -> is_number (x - 1)%float.
Proof.
  unfold is_number. intros H. rewrite FloatAxioms.sub_spec.
  change (Prim2SF 1) with (S754_finite false 4503599627370496 (-52)).
  apply SFsub_finite_number, H.
Qed.

Lemma abs_number (x : float) : is_number x -> is_number (abs x).
Proof.
  unfold is_number. rewrite FloatAxioms.abs_spec.
  destruct (Prim2SF x); cbn [SFabs]; congruence.
Qed.

(** Two numbers always compare. *)
Lemma leb_or_ltb (x y : float) :
  is_number x -> is_number y ->
  (x <=? y)%float = true \/ (y <? x)%float = true.
Proof.
  intros Hx Hy. rewrite (leb_numbers _ _ Hx Hy), (ltb_numbers _ _ Hy Hx).
  destruct (Z.leb_spec (rank x) (rank y)) as [H | H]; [left; reflexivity|].
  right. apply Z.ltb_lt, H.
Qed.

(** [x === x] holds exactly for the numbers other than NaN. *)
Lemma eqb_refl_number (x : float) : (x =? x)%float = true <-> is_number x.
Proof.
  rewrite eqb_true_iff. intuition.
Qed.
End Binary64.

(** * Part 5. Strings: trimming *)

Module StringFacts.
Import Spec.

Lemma trimStart_nil_iff (s : jsstring) :
  trimStart s = [] <-> forallb isTrimmed s = true.
Proof.
  induction s as [ | c s IH]; cbn [trimStart forallb].
  - tauto.
  - destruct (isTrimmed c); cbn [andb]; [exact IH|].
    split; discriminate.
Qed.

Lemma trimStart_head (s : jsstring) (c : code_unit) (t : jsstring) :
  trimStart s = c :: t -> isTrimmed c = false.
Proof.
  induction s as [ | d s IH]; cbn [trimStart]; [discriminate|].
  destruct (isTrimmed d) eqn:E; [exact IH|].
  intros H. injection H as -> _. exact E.
Qed.

Lemma trimStart_kept (c : code_unit) (s : jsstring) :
  isTrimmed c = false -> trimStart (c :: s) = c :: s.
Proof. intros H. cbn [trimStart]. rewrite H. reflexivity. Qed.

Lemma forallb_rev {A : Type} (f : A -> bool) (l : list A) :
  forallb f (rev l) = forallb f l.
Proof.
  induction l as [ | a l IH]; [reflexivity|].
  cbn [rev forallb]. rewrite forallb_app, IH. cbn [forallb].
  rewrite andb_true_r. apply andb_comm.
Qed.

Lemma trimEnd_nil_iff (s : jsstring) :
  trimEnd s = [] <-> forallb isTrimmed s = true.
Proof.
  unfold trimEnd. rewrite <- (forallb_rev isTrimmed s), <- trimStart_nil_iff.
  split; intros H.
  - apply (f_equal (@rev _)) in H. rewrite rev_involutive in H. exact H.
  - rewrite H. reflexivity.
Qed.

(** A string trims to nothing exactly when it is empty or made of
    white space and line terminators only. *)
Lemma trim_nil_iff (s : jsstring) :
  trim s = [] <-> forallb isTrimmed s = true.
Proof.
  unfold trim. rewrite trimEnd_nil_iff. split; intros H.
  - destruct (trimStart s) as [ | c t] eqn:E; [apply trimStart_nil_iff, E|].
    apply trimStart_head in E. cbn [forallb] in H. rewrite E in H. discriminate.
  - apply trimStart_nil_iff in H. rewrite H. reflexivity.
Qed.

(** Trimming the end leaves a string that ends in a kept code unit as it is. *)
Lemma trimEnd_kept (s : jsstring) (c : code_unit) :
  isTrimmed c = false -> trimEnd (s ++ [c]) = s ++ [c].
Proof.
  intros H. unfold trimEnd. rewrite rev_app_distr. cbn [rev app].
  rewrite trimStart_kept by exact H. cbn [rev]. rewrite rev_involutive.
  reflexivity.
Qed.

(** Trimming the end drops one final line feed after a kept code unit. *)
Lemma trimEnd_drop_LF (s : jsstring) (c : code_unit) :
  isTrimmed c = false -> trimEnd (s ++ [c] ++ LF) = s ++ [c].
Proof.
  intros H. unfold trimEnd, LF. rewrite app_assoc, rev_app_distr.
  cbn [rev app trimStart]. change (isTrimmed 10%N) with true. cbn iota.
  rewrite rev_app_distr. cbn [rev app].
  rewrite trimStart_kept by exact H. cbn [rev]. rewrite rev_involutive.
  reflexivity.
Qed.

Lemma trimEnd_head (s t : jsstring) (c : code_unit) :
  trimEnd s = t ++ [c] -> isTrimmed c = false.
Proof.
  unfold trimEnd. intros H.
  apply (f_equal (@rev _)) in H. rewrite rev_involutive, rev_app_distr in H.
  cbn [rev app] in H. exact (trimStart_head _ _ _ H).
Qed.

Lemma trimStart_suffix (s : jsstring) : exists p, s = p ++ trimStart s.
Proof.
  induction s as [ | c s [p IH]]; [exists []; reflexivity|].
  cbn [trimStart]. destruct (isTrimmed c).
  - exists (c :: p). cbn [app]. f_equal. exact IH.
  - exists []. reflexivity.
Qed.

Lemma trimEnd_prefix (s : jsstring) : exists p, s = trimEnd s ++ p.
Proof.
  unfold trimEnd. destruct (trimStart_suffix (rev s)) as [p H].
  exists (rev p). rewrite <- rev_app_distr, <- H, rev_involutive. reflexivity.
Qed.

Lemma trimEnd_keeps_head (s : jsstring) (c : code_unit) (t : jsstring) :
  isTrimmed c = false -> exists t', trimEnd (c :: t) = c :: t'.
Proof.
  intros H. destruct (trimEnd_prefix (c :: t)) as [p Hp].
  destruct (trimEnd (c :: t)) as [ | d t'] eqn:E.
  - apply trimEnd_nil_iff in E. cbn [forallb] in E. rewrite H in E. discriminate.
  - cbn [app] in Hp. injection Hp as <- _. exists t'. reflexivity.
Qed.

Lemma trim_trimmed (s : jsstring) : trimmed (trim s).
Proof.
  unfold trim. split.
  - intros c t H. destruct (trimStart s) as [ | d u] eqn:E.
    + discriminate H.
    + pose proof (trimStart_head _ _ _ E) as Hd.
      destruct (trimEnd_keeps_head s d u Hd) as [t' Ht'].
      rewrite Ht' in H. injection H as <- _. exact Hd.
  - intros c t H. exact (trimEnd_head _ _ _ H).
Qed.

End StringFacts.

(** What [Number.toString] prints for some numbers whose JavaScript
    rendering is well known. *)
Example Number_toString_examples :
  List.map Number.toString
    [0.5; 1; 0.1 + 0.2; 0.3 + 0.3 + 0.3; 1 / 3; 100; 1e21; 1e-7; 0.000001;
     123.456; 9007199254740992; 0x1p-1074; -1.5; 0 / 0; 1 / 0]%float
  = List.map lit
      ["0.5"; "1"; "0.30000000000000004"; "0.8999999999999999";
       "0.3333333333333333"; "100"; "1e+21"; "1e-7"; "0.000001"; "123.456";
       "9007199254740992"; "5e-324"; "-1.5"; "NaN"; "Infinity"]%string.
Proof. vm_compute. reflexivity. Qed.

(** * Part 6. Validation of the weight distribution *)

Module Validation.
Import Spec.
Import PromptFusionEngine.
Local Open Scope float_scope.

Lemma within_not_outside (weights : Weights) :
  within_tolerance weights = true -> outside_tolerance weights = false.
Proof. apply Binary64.leb_ltb_false. Qed.

Lemma weightedFusion_rejects (basePrompt brainPrompt personaPrompt : jsstring)
  (weights : Weights) :
  outside_tolerance weights = true ->
  weightedFusion basePrompt brainPrompt personaPrompt weights =
    Throw (Error (lit "Weights must sum to 1.0, got "
                    ++ Number.toString (weightSum weights)
                    ++ lit ". Please adjust weights.")).
Proof.
  unfold outside_tolerance, weightSum, weightedFusion. intros ->. reflexivity.
Qed.

Lemma semanticWeightedFusion_rejects
  (basePrompt brainPrompt personaPrompt : jsstring) (weights : Weights) :
  outside_tolerance weights = true ->
  semanticWeightedFusion basePrompt brainPrompt personaPrompt weights =
    Throw (Error (lit "Weights must sum to 1.0, got "
                    ++ Number.toString (weightSum weights))).
Proof.
  unfold outside_tolerance, weightSum, semanticWeightedFusion. intros ->.
  reflexivity.
Qed.

Lemma weightedFusion_accepts (basePrompt brainPrompt personaPrompt : jsstring)
  (weights : Weights) :
  outside_tolerance weights = false ->
  exists s,
    weightedFusion basePrompt brainPrompt personaPrompt weights = Return s.
Proof.
  unfold outside_tolerance, weightSum, weightedFusion. intros ->.
  eexists. reflexivity.
Qed.

Lemma semanticWeightedFusion_accepts
  (basePrompt brainPrompt personaPrompt : jsstring) (weights : Weights) :
  outside_tolerance weights = false ->
  exists s,
    semanticWeightedFusion basePrompt brainPrompt personaPrompt weights
    = Return s.
Proof.
  unfold outside_tolerance, weightSum, semanticWeightedFusion. intros ->.
  eexists. reflexivity.
Qed.

(** A sum that is a number is within the tolerance or outside it. *)
Lemma within_or_outside (weights : Weights) :
  (weightSum weights =? weightSum weights) = true ->
  within_tolerance weights = true \/ outside_tolerance weights = true.
Proof.
  intros H. apply Binary64.eqb_refl_number in H.
  apply Binary64.leb_or_ltb.
  - apply Binary64.abs_number, Binary64.sub_one_number, H.
  - apply Binary64.eqb_refl_number. reflexivity.
Qed.

(** C3.  A distribution whose sum (after the defaults) is within 0.001
    of 1.0 makes both fusion functions return a string; one whose sum is
    further away makes both throw an error whose message carries that
    sum.  Every sum that is a number falls under one of the two cases,
    and never under both. *)
Theorem validation_by_tolerance
  (basePrompt brainPrompt personaPrompt : jsstring) (weights : Weights) :
  ((weightSum weights =? weightSum weights) = true ->
     within_tolerance weights = true \/ outside_tolerance weights = true)
  /\ (within_tolerance weights = true -> outside_tolerance weights = false)
  /\ (within_tolerance weights = true ->
     (exists s, weightedFusion basePrompt brainPrompt personaPrompt weights
                = Return s)
     /\ (exists s, semanticWeightedFusion basePrompt brainPrompt personaPrompt
                     weights = Return s))
  /\ (outside_tolerance weights = true ->
        weightedFusion basePrompt brainPrompt personaPrompt weights =
          Throw (Error (lit "Weights must sum to 1.0, got "
                          ++ Number.toString (weightSum weights)
                          ++ lit ". Please adjust weights."))
        /\ semanticWeightedFusion basePrompt brainPrompt personaPrompt weights =
             Throw (Error (lit "Weights must sum to 1.0, got "
                             ++ Number.toString (weightSum weights)))).
Proof.
  split; [exact (within_or_outside weights)|].
  split; [exact (within_not_outside weights)|].
  split.
  - intros H. apply within_not_outside in H.
    split; [apply weightedFusion_accepts | apply semanticWeightedFusion_accepts];
      exact H.
  - intros H.
    split; [apply weightedFusion_rejects | apply semanticWeightedFusion_rejects];
      exact H.
Qed.

(** Both sides of C3 at work: a distribution that sums to 1 is accepted,
    and the distribution [{base: 0.3, brain: 0.3, persona: 0.3}] is
    rejected with the sum binary64 arithmetic gives it. *)
Lemma validation_by_tolerance_witness :
  let valid := {| base := Some 1.0; brain := Some 0; persona := Some 0 |} in
  let invalid := {| base := Some 0.3; brain := Some 0.3; persona := Some 0.3 |} in
  (exists s, weightedFusion (lit "Tool rules") [] [] valid = Return s)
  /\ semanticWeightedFusion (lit "B") (lit "C") (lit "P") invalid =
       Throw (Error (lit "Weights must sum to 1.0, got 0.8999999999999999")).
Proof.
  intros valid invalid. split.
  - exact (proj1 (proj1 (proj2 (proj2 (validation_by_tolerance
                                          (lit "Tool rules") [] [] valid)))
                    eq_refl)).
  - exact (proj2 (proj2 (proj2 (proj2 (validation_by_tolerance
                                          (lit "B") (lit "C") (lit "P") invalid)))
                    eq_refl)).
Defined.

(** C1, as the specification states it, fails: with only [base] supplied
    the other two keys take their defaults, not 0, so [{base: 1.0}] sums
    to 1.5 and both fusion functions reject it. *)
Lemma partial_distribution_rejected :
  let weights := {| base := Some 1.0; brain := None; persona := None |} in
  weightSum weights = 1.5
  /\ weightedFusion (lit "Tool rules") [] [] weights =
       Throw (Error (lit "Weights must sum to 1.0, got 1.5. Please adjust weights."))
  /\ semanticWeightedFusion (lit "Tool rules") [] [] weights =
       Throw (Error (lit "Weights must sum to 1.0, got 1.5")).
Proof.
  cbv zeta. repeat split; vm_compute; reflexivity.
Qed.

(** C1, amended.  Each key missing from a supplied distribution takes
    the default of its own (base 0.5, brain 0.3, persona 0.2) before the
    validation sum: a partial distribution behaves as the same
    distribution with the defaults filled in.  When the distribution is
    left out of [fusePrompts] the empty object is used, so all three
    defaults apply and the sum is 1. *)
Theorem missing_keys_take_defaults
  (basePrompt brainPrompt personaPrompt : jsstring) (weights : Weights) :
  weightSum weights = weightSum (with_defaults weights)
  /\ weightedFusion basePrompt brainPrompt personaPrompt weights =
       weightedFusion basePrompt brainPrompt personaPrompt
         (with_defaults weights)
  /\ semanticWeightedFusion basePrompt brainPrompt personaPrompt weights =
       semanticWeightedFusion basePrompt brainPrompt personaPrompt
         (with_defaults weights)
  /\ (forall (layers : PromptLayers) (strategy : option jsstring),
        fusePrompts layers strategy None =
          fusePrompts layers strategy (Some (with_defaults no_weights)))
  /\ with_defaults no_weights =
       {| base := Some 0.5; brain := Some 0.3; persona := Some 0.2 |}
  /\ weightSum no_weights = 1.
Proof.
  destruct weights as [b r p].
  split; [reflexivity|]. split; [reflexivity|]. split; [reflexivity|].
  split; [|split; reflexivity].
  intros layers strategy. unfold fusePrompts. cbn [default].
  destruct (Get fusionStrategies (default (lit "semanticWeighted") strategy))
    as [[f | m] | ]; [destruct f | | ]; reflexivity.
Qed.

End Validation.

(** * Part 7. Semantic emphasis *)

Module Emphasis.
Import Spec.
Import PromptFusionEngine.
Local Open Scope float_scope.

Lemma below_threshold (weight low high : float) :
  (weight <? low) = true -> (low <=? high) = true -> (high <=? weight) = false.
Proof.
  intros H1 H2. apply Binary64.ltb_leb_false.
  exact (Binary64.ltb_leb_trans _ _ _ H1 H2).
Qed.

Lemma emphasis_total (weight : float) :
  In (getSemanticEmphasis weight) [CRITICAL; HIGH; MODERATE; OPTIONAL].
Proof.
  unfold getSemanticEmphasis.
  destruct (0.6 <=? weight); [left; reflexivity|].
  destruct (0.4 <=? weight); [right; left; reflexivity|].
  destruct (0.2 <=? weight); [right; right; left; reflexivity|].
  right; right; right; left; reflexivity.
Qed.

(** The four intervals leave no number out. *)
Lemma intervals_cover (weight : float) :
  (weight =? weight) = true ->
  (0.6 <=? weight) = true
  \/ ((0.4 <=? weight) = true /\ (weight <? 0.6) = true)
  \/ ((0.2 <=? weight) = true /\ (weight <? 0.4) = true)
  \/ (weight <? 0.2) = true.
Proof.
  intros H. apply Binary64.eqb_refl_number in H.
  assert (N : forall x, (x =? x) = true -> Rank.is_number x)
    by (intros x; apply Binary64.eqb_refl_number).
  destruct (Binary64.leb_or_ltb 0.6 weight (N 0.6 eq_refl) H) as [H6 | H6];
    [left; exact H6|].
  destruct (Binary64.leb_or_ltb 0.4 weight (N 0.4 eq_refl) H) as [H4 | H4];
    [right; left; split; assumption|].
  destruct (Binary64.leb_or_ltb 0.2 weight (N 0.2 eq_refl) H) as [H2 | H2];
    [right; right; left; split; assumption|].
  right; right; right; exact H2.
Qed.

(** C5.  [getSemanticEmphasis] answers for every weight, with one of the
    four labels, by closed-open intervals that cover every number: at
    least 0.6 is CRITICAL PRIORITY - MUST FOLLOW, from 0.4 up to 0.6 is
    HIGH IMPORTANCE, from 0.2 up to 0.4 is MODERATE GUIDANCE, and below
    0.2 is OPTIONAL CONSIDERATION; 0.6, 0.4 and 0.2 themselves take the
    higher label. *)
Theorem getSemanticEmphasis_intervals (weight : float) :
  In (getSemanticEmphasis weight) [CRITICAL; HIGH; MODERATE; OPTIONAL]
  /\ ((0.6 <=? weight) = true -> getSemanticEmphasis weight = CRITICAL)
  /\ ((0.4 <=? weight) = true -> (weight <? 0.6) = true ->
      getSemanticEmphasis weight = HIGH)
  /\ ((0.2 <=? weight) = true -> (weight <? 0.4) = true ->
      getSemanticEmphasis weight = MODERATE)
  /\ ((weight <? 0.2) = true -> getSemanticEmphasis weight = OPTIONAL)
  /\ ((weight =? weight) = true ->
      (0.6 <=? weight) = true
      \/ ((0.4 <=? weight) = true /\ (weight <? 0.6) = true)
      \/ ((0.2 <=? weight) = true /\ (weight <? 0.4) = true)
      \/ (weight <? 0.2) = true)
  /\ List.map getSemanticEmphasis [0.6; 0.59999; 0.4; 0.39999; 0.2; 0.19999; 0]
     = [CRITICAL; HIGH; HIGH; MODERATE; MODERATE; OPTIONAL; OPTIONAL].
Proof.
  split; [apply emphasis_total|]. unfold getSemanticEmphasis.
  split; [intros ->; reflexivity|].
  split.
  { intros H4 H6. apply Binary64.ltb_leb_false in H6. rewrite H6, H4.
    reflexivity. }
  split.
  { intros H2 H4.
    rewrite (below_threshold weight 0.4 0.6 H4 eq_refl).
    apply Binary64.ltb_leb_false in H4. rewrite H4, H2. reflexivity. }
  split.
  { intros H2.
    rewrite (below_threshold weight 0.2 0.6 H2 eq_refl).
    rewrite (below_threshold weight 0.2 0.4 H2 eq_refl).
    apply Binary64.ltb_leb_false in H2. rewrite H2. reflexivity. }
  split; [exact (intervals_cover weight)|].
  reflexivity.
Qed.

End Emphasis.

(** * Part 8. Layer blocks *)

Module Assembly.
Import Spec.
Import PromptFusionEngine Validation StringFacts.
Local Open Scope float_scope.

Lemma weightedFusion_blocks (basePrompt brainPrompt personaPrompt : jsstring)
  (weights : Weights) :
  within_tolerance weights = true ->
  weightedFusion basePrompt brainPrompt personaPrompt weights =
    Return (trim (numeric_blocks basePrompt brainPrompt personaPrompt weights)).
Proof.
  intros H. apply within_not_outside in H.
  unfold outside_tolerance, weightSum in H.
  unfold weightedFusion, numeric_blocks, numeric_block, emitted. rewrite H.
  destruct (truthy basePrompt && (0 <? default 0.5 (base weights)));
    destruct (truthy brainPrompt && (0 <? default 0.3 (brain weights)));
    destruct (truthy personaPrompt && (0 <? default 0.2 (persona weights)));
    cbn [app]; rewrite ?app_nil_r, <- ?app_assoc; reflexivity.
Qed.

Lemma semanticWeightedFusion_blocks
  (basePrompt brainPrompt personaPrompt : jsstring) (weights : Weights) :
  within_tolerance weights = true ->
  semanticWeightedFusion basePrompt brainPrompt personaPrompt weights =
    Return (trim (semantic_blocks basePrompt brainPrompt personaPrompt weights
                    ++ generateConflictResolutionRules weights)).
Proof.
  intros H. apply within_not_outside in H.
  unfold outside_tolerance, weightSum in H.
  unfold semanticWeightedFusion, semantic_blocks, semantic_block, emitted.
  rewrite H.
  destruct (truthy basePrompt && (0 <? default 0.5 (base weights)));
    destruct (truthy brainPrompt && (0 <? default 0.3 (brain weights)));
    destruct (truthy personaPrompt && (0 <? default 0.2 (persona weights)));
    cbn [app]; rewrite ?app_nil_r, <- ?app_assoc; reflexivity.
Qed.

Lemma emitted_empty_text (weight : float) : emitted [] weight = false.
Proof. reflexivity. Qed.

Lemma emitted_no_weight (text : jsstring) (weight : float) :
  (weight <=? 0) = true -> emitted text weight = false.
Proof.
  intros H. unfold emitted. rewrite (Binary64.leb_ltb_false _ _ H).
  apply andb_false_r.
Qed.

Lemma emitted_text_and_weight (text : jsstring) (weight : float) :
  text <> [] -> (0 <? weight) = true -> emitted text weight = true.
Proof.
  intros Ht Hw. unfold emitted. rewrite Hw.
  destruct text; [congruence | reflexivity].
Qed.

(** C6.  In both fusion functions a layer with empty text emits no
    block whatever its weight, and a layer whose weight is zero or
    negative emits no block whatever its text; the blocks that are
    emitted come in the order base, brain, persona, and the result is
    the concatenation trimmed of leading and trailing white space. *)
Theorem omission_rule (basePrompt brainPrompt personaPrompt : jsstring)
  (weights : Weights) :
  within_tolerance weights = true ->
  weightedFusion basePrompt brainPrompt personaPrompt weights =
    Return (trim
      (numeric_block (lit "[BASE_WEIGHT:") basePrompt
         (default 0.5 (base weights))
       ++ numeric_block (lit "[BRAIN_WEIGHT:") brainPrompt
            (default 0.3 (brain weights))
       ++ numeric_block (lit "[PERSONA_WEIGHT:") personaPrompt
            (default 0.2 (persona weights))))
  /\ semanticWeightedFusion basePrompt brainPrompt personaPrompt weights =
       Return (trim
         ((semantic_block (lit "[BASE LAYER - ") basePrompt
             (default 0.5 (base weights))
           ++ semantic_block (lit "[BRAIN CONFIGURATION - ") brainPrompt
                (default 0.3 (brain weights))
           ++ semantic_block (lit "[PERSONA INSTRUCTIONS - ") personaPrompt
                (default 0.2 (persona weights)))
          ++ generateConflictResolutionRules weights))
  /\ (forall s, trimmed (trim s))
  /\ (forall marker weight,
        numeric_block marker [] weight = []
        /\ semantic_block marker [] weight = [])
  /\ (forall marker text weight,
        (weight <=? 0) = true ->
        numeric_block marker text weight = []
        /\ semantic_block marker text weight = [])
  /\ (forall marker text weight,
        text <> [] -> (0 <? weight) = true ->
        numeric_block marker text weight =
          marker ++ Number.toString weight ++ lit "]" ++ LF ++ text ++ LF ++ LF
        /\ semantic_block marker text weight =
             marker ++ getSemanticEmphasis weight ++ lit "]" ++ LF ++ text
               ++ LF ++ LF).
Proof.
  intros H.
  split; [exact (weightedFusion_blocks _ _ _ _ H)|].
  split; [exact (semanticWeightedFusion_blocks _ _ _ _ H)|].
  split; [exact trim_trimmed|].
  split; [intros marker weight; split; reflexivity|].
  split.
  - intros marker text weight Hw. unfold numeric_block, semantic_block.
    rewrite (emitted_no_weight text weight Hw). split; reflexivity.
  - intros marker text weight Ht Hw. unfold numeric_block, semantic_block.
    rewrite (emitted_text_and_weight text weight Ht Hw). split; reflexivity.
Qed.

(** Example 2 of the specification, by way of C6: one block for the
    base layer, trimmed. *)
Lemma omission_rule_witness :
  within_tolerance {| base := Some 1.0; brain := Some 0; persona := Some 0 |}
  = true
  /\ weightedFusion (lit "Tool rules") [] []
       {| base := Some 1.0; brain := Some 0; persona := Some 0 |}
     = Return (lit "[BASE_WEIGHT:1]" ++ LF ++ lit "Tool rules").
Proof.
  split; [reflexivity|].
  exact (proj1 (omission_rule (lit "Tool rules") [] []
                  {| base := Some 1.0; brain := Some 0; persona := Some 0 |}
                  eq_refl)).
Defined.

End Assembly.

(** * Part 9. The conflict-resolution directive *)

Module Directive.
Import Spec.
Import PromptFusionEngine Validation StringFacts Assembly.
Local Open Scope float_scope.

(** ** The sort *)

Lemma SortCompare_by_weight {B : Type} (a b : Layer) (swap keep : B) :
  positive_weight a = true -> positive_weight b = true ->
  match SortCompare by_weight a b with
  | Gt => swap
  | _ => keep
  end = if weight a <? weight b then swap else keep.
Proof.
  unfold positive_weight, SortCompare, by_weight. intros Ha Hb.
  rewrite <- (Binary64.sub_positive_sign _ _ Ha Hb).
  destruct (0 <? weight b - weight a) eqn:E.
  - rewrite (Binary64.ltb_asym _ _ E). reflexivity.
  - destruct (weight b - weight a <? 0); reflexivity.
Qed.

Lemma insert_Forall {A : Type} (P : A -> Prop) (comparefn : A -> A -> float)
  (x : A) (s : list A) :
  P x -> Forall P s -> Forall P (insert comparefn x s).
Proof.
  intros Hx Hs. induction Hs as [ | y rest Hy Hrest IH]; cbn [insert].
  - constructor; [exact Hx | constructor].
  - destruct (SortCompare comparefn x y); repeat (constructor; trivial).
Qed.

Lemma insert_Permutation {A : Type} (comparefn : A -> A -> float) (x : A)
  (s : list A) :
  Permutation (insert comparefn x s) (x :: s).
Proof.
  induction s as [ | y rest IH]; cbn [insert]; [reflexivity|].
  destruct (SortCompare comparefn x y); try reflexivity.
  rewrite IH. apply perm_swap.
Qed.

Lemma sort_Permutation {A : Type} (comparefn : A -> A -> float) (l : list A) :
  Permutation (sort comparefn l) l.
Proof.
  induction l as [ | x l IH]; cbn [sort fold_right]; [reflexivity|].
  rewrite insert_Permutation. apply perm_skip, IH.
Qed.

Lemma positive_rank (a : Layer) :
  positive_weight a = true ->
  Rank.is_number (weight a) /\ (0 < Rank.rank (weight a))%Z.
Proof. apply Binary64.positive_iff. Qed.

Lemma before_rank (a b : Layer) :
  positive_weight a = true -> positive_weight b = true ->
  before a b <->
  (Rank.rank (weight b) < Rank.rank (weight a))%Z
  \/ (Rank.rank (weight a) = Rank.rank (weight b)
      /\ (fixed_priority a < fixed_priority b)%nat).
Proof.
  intros Ha Hb. destruct (positive_rank a Ha) as [Na _].
  destruct (positive_rank b Hb) as [Nb _]. unfold before.
  rewrite (Binary64.ltb_numbers _ _ Nb Na), (Binary64.eqb_numbers _ _ Na Nb).
  rewrite Z.ltb_lt, Z.eqb_eq. reflexivity.
Qed.

Lemma not_lighter_rank (a b : Layer) :
  positive_weight a = true -> positive_weight b = true ->
  (weight a <? weight b) = false ->
  (Rank.rank (weight b) <= Rank.rank (weight a))%Z.
Proof.
  intros Ha Hb. destruct (positive_rank a Ha) as [Na _].
  destruct (positive_rank b Hb) as [Nb _].
  rewrite (Binary64.ltb_numbers _ _ Na Nb). apply Z.ltb_ge.
Qed.

(** Inserting an entry that has the higher fixed priority than all the
    entries of a list in priority order keeps the list in that order. *)
Lemma insert_before (x : Layer) (s : list Layer) :
  positive_weight x = true ->
  Forall (fun y => positive_weight y = true) s ->
  Forall (fun y => (fixed_priority x < fixed_priority y)%nat) s ->
  StronglySorted before s ->
  StronglySorted before (insert by_weight x s).
Proof.
  intros Hx Hpos Hprio Hsorted.
  induction s as [ | y rest IH]; cbn [insert].
  - constructor; constructor.
  - inversion Hpos as [ | ? ? Hy Hrest]; subst.
    inversion Hprio as [ | ? ? Py Prest]; subst.
    apply StronglySorted_inv in Hsorted. destruct Hsorted as [Srest Fy].
    rewrite (SortCompare_by_weight x y _ _ Hx Hy).
    destruct (weight x <? weight y) eqn:E.
    + constructor; [exact (IH Hrest Prest Srest)|].
      apply insert_Forall; [left; exact E | exact Fy].
    + pose proof (not_lighter_rank x y Hx Hy E) as Hxy.
      constructor; [constructor; assumption|].
      constructor.
      * apply (before_rank x y Hx Hy). lia.
      * rewrite Forall_forall in *. intros z Hz.
        apply (before_rank x z Hx (Hrest z Hz)).
        pose proof (Fy z Hz) as Hyz.
        apply (before_rank y z Hy (Hrest z Hz)) in Hyz.
        pose proof (Prest z Hz). lia.
Qed.

Lemma sort_before (l : list Layer) :
  Forall (fun y => positive_weight y = true) l ->
  StronglySorted (fun a b => (fixed_priority a < fixed_priority b)%nat) l ->
  StronglySorted before (sort by_weight l).
Proof.
  intros Hpos Hprio. induction l as [ | x l IH]; cbn [sort fold_right].
  - constructor.
  - inversion Hpos as [ | ? ? Hx Hl]; subst.
    apply StronglySorted_inv in Hprio. destruct Hprio as [Sl Fx].
    apply insert_before.
    + exact Hx.
    + apply (Permutation_Forall (Permutation_sym (sort_Permutation by_weight l))).
      exact Hl.
    + apply (Permutation_Forall (Permutation_sym (sort_Permutation by_weight l))).
      exact Fx.
    + exact (IH Hl Sl).
Qed.

Lemma filter_positive (l : list Layer) :
  Forall (fun y => positive_weight y = true) (filter positive_weight l).
Proof.
  apply Forall_forall. intros y Hy. apply filter_In in Hy. apply Hy.
Qed.

Lemma entries_in_fixed_order (weights : Weights) :
  StronglySorted (fun a b => (fixed_priority a < fixed_priority b)%nat)
    (filter positive_weight (entries weights)).
Proof.
  unfold entries. cbn [filter].
  repeat match goal with
         | |- context [if positive_weight ?l then _ else _] =>
             destruct (positive_weight l)
         end;
    repeat (constructor; try (cbv; lia)).
Qed.

Lemma priority_order_sorted (weights : Weights) :
  StronglySorted before (priority_order weights).
Proof.
  apply sort_before; [apply filter_positive | apply entries_in_fixed_order].
Qed.

Lemma priority_order_Permutation (weights : Weights) :
  Permutation (priority_order weights)
    (filter positive_weight (entries weights)).
Proof. apply sort_Permutation. Qed.

Lemma priority_order_length (weights : Weights) :
  (List.length (priority_order weights) <= 3)%nat.
Proof.
  rewrite (Permutation_length (priority_order_Permutation weights)).
  apply (filter_length_le positive_weight (entries weights)).
Qed.

(** ** The text *)

Lemma index_strings :
  Number.toString (0 + 1) = Number.digits (Z.of_nat 1)
  /\ Number.toString (0 + 1 + 1) = Number.digits (Z.of_nat 2)
  /\ Number.toString (0 + 1 + 1 + 1) = Number.digits (Z.of_nat 3).
Proof. vm_compute. repeat split. Qed.

Lemma forEach_numbered (l : list Layer) (rules : jsstring) :
  (List.length l <= 3)%nat ->
  forEach
    (fun layer index rules =>
       rules ++ Number.toString (index + 1) ++ lit ". " ++ name layer
         ++ lit " instructions (weight: " ++ Number.toString (weight layer)
         ++ lit ")" ++ LF)
    l 0 rules
  = rules ++ numbered 1 l.
Proof.
  destruct index_strings as (I1 & I2 & I3).
  destruct l as [ | a [ | b [ | c [ | d l]]]]; cbn [List.length]; intros H;
    try lia; cbn [forEach numbered]; unfold entry;
    rewrite ?I1, ?I2, ?I3, ?app_nil_r, <- ?app_assoc; reflexivity.
Qed.

Lemma rules_directive (weights : Weights) :
  generateConflictResolutionRules weights = LF ++ directive weights ++ LF.
Proof.
  unfold generateConflictResolutionRules.
  change (sort _ (filter _ _)) with (priority_order weights).
  rewrite (forEach_numbered _ _ (priority_order_length weights)).
  unfold directive. rewrite <- ?app_assoc. reflexivity.
Qed.

Lemma directive_shape (weights : Weights) :
  exists m, directive weights = 91%N :: m ++ [46%N].
Proof.
  exists (lit "CONFLICT RESOLUTION RULES]" ++ LF
            ++ lit "When instructions conflict, apply this priority order:"
            ++ LF ++ numbered 1 (priority_order weights) ++ LF
            ++ lit "Always prioritize higher-weighted layers when resolving conflicts").
  unfold directive.
  change (lit "Always prioritize higher-weighted layers when resolving conflicts.")
    with (lit "Always prioritize higher-weighted layers when resolving conflicts"
            ++ [46%N]).
  change (lit "[CONFLICT RESOLUTION RULES]")
    with (91%N :: lit "CONFLICT RESOLUTION RULES]").
  cbn [app]. rewrite <- ?app_assoc. reflexivity.
Qed.

Lemma semantic_block_shape (marker text : jsstring) (weight : float) :
  semantic_block (91%N :: marker) text weight = []
  \/ exists t, semantic_block (91%N :: marker) text weight = 91%N :: t.
Proof.
  unfold semantic_block. destruct (emitted text weight); [right | left; reflexivity].
  eexists. reflexivity.
Qed.

Lemma semantic_blocks_shape (basePrompt brainPrompt personaPrompt : jsstring)
  (weights : Weights) :
  semantic_blocks basePrompt brainPrompt personaPrompt weights = []
  \/ exists t,
       semantic_blocks basePrompt brainPrompt personaPrompt weights = 91%N :: t.
Proof.
  unfold semantic_blocks.
  change (lit "[BASE LAYER - ") with (91%N :: lit "BASE LAYER - ").
  change (lit "[BRAIN CONFIGURATION - ")
    with (91%N :: lit "BRAIN CONFIGURATION - ").
  change (lit "[PERSONA INSTRUCTIONS - ")
    with (91%N :: lit "PERSONA INSTRUCTIONS - ").
  destruct (semantic_block_shape (lit "BASE LAYER - ") basePrompt
              (default 0.5 (base weights))) as [-> | [t ->]];
    [|right; eexists; reflexivity].
  destruct (semantic_block_shape (lit "BRAIN CONFIGURATION - ") brainPrompt
              (default 0.3 (brain weights))) as [-> | [t ->]];
    [|right; eexists; reflexivity].
  destruct (semantic_block_shape (lit "PERSONA INSTRUCTIONS - ") personaPrompt
              (default 0.2 (persona weights))) as [-> | [t ->]];
    [left; reflexivity | right; eexists; reflexivity].
Qed.

(** Trimming the fused prompt: the line feed that opens the directive
    goes when no block precedes it, the one that closes it always goes. *)
Lemma trim_fused (blocks m : jsstring) :
  blocks = [] \/ (exists t, blocks = 91%N :: t) ->
  trim (blocks ++ LF ++ (91%N :: m ++ [46%N]) ++ LF)
  = separate blocks ++ 91%N :: m ++ [46%N].
Proof.
  intros [-> | [t ->]]; unfold trim.
  - cbn [app LF trimStart]. change (isTrimmed 10%N) with true.
    change (isTrimmed 91%N) with false. cbv iota.
    change (91%N :: (m ++ [46%N]) ++ LF) with (((91%N :: m) ++ [46%N]) ++ LF).
    rewrite <- app_assoc. apply trimEnd_drop_LF. reflexivity.
  - cbn [app separate]. rewrite trimStart_kept by reflexivity.
    change (91%N :: t ++ LF ++ 91%N :: (m ++ [46%N]) ++ LF)
      with ((91%N :: t) ++ LF ++ ((91%N :: m) ++ [46%N]) ++ LF).
    change (91%N :: (t ++ LF) ++ 91%N :: m ++ [46%N])
      with (((91%N :: t) ++ LF) ++ (91%N :: m) ++ [46%N]).
    rewrite <- ?app_assoc.
    rewrite (app_assoc (91%N :: t)), (app_assoc (_ ++ LF)).
    rewrite trimEnd_drop_LF by reflexivity.
    rewrite <- ?app_assoc. reflexivity.
Qed.

(** The text semantic fusion returns: the layer blocks, then the
    directive. *)
Lemma semanticWeightedFusion_output
  (basePrompt brainPrompt personaPrompt : jsstring) (weights : Weights) :
  within_tolerance weights = true ->
  semanticWeightedFusion basePrompt brainPrompt personaPrompt weights =
    Return (separate
              (semantic_blocks basePrompt brainPrompt personaPrompt weights)
            ++ directive weights).
Proof.
  intros H. rewrite (semanticWeightedFusion_blocks _ _ _ _ H).
  rewrite rules_directive. destruct (directive_shape weights) as [m ->].
  rewrite trim_fused by apply semantic_blocks_shape. reflexivity.
Qed.

Lemma positive_entry_listed (weights : Weights) (l : Layer) :
  In l (entries weights) -> (0 <? weight l) = true ->
  In l (priority_order weights).
Proof.
  intros Hl Hw.
  apply (Permutation_in _ (Permutation_sym (priority_order_Permutation weights))).
  apply filter_In. split; [exact Hl | exact Hw].
Qed.

(** C4.  For a valid distribution semantic fusion returns the layer
    blocks followed by the directive: its heading, a numbered list of
    exactly the layers whose weight is above zero, sorted by descending
    weight with ties in the fixed order persona, brain, base, each entry
    naming the layer and its weight, and the closing instruction. *)
Theorem directive_priority_list
  (basePrompt brainPrompt personaPrompt : jsstring) (weights : Weights) :
  within_tolerance weights = true ->
  semanticWeightedFusion basePrompt brainPrompt personaPrompt weights =
    Return (separate
              (semantic_blocks basePrompt brainPrompt personaPrompt weights)
            ++ lit "[CONFLICT RESOLUTION RULES]" ++ LF
            ++ lit "When instructions conflict, apply this priority order:"
            ++ LF ++ numbered 1 (priority_order weights) ++ LF
            ++ lit "Always prioritize higher-weighted layers when resolving conflicts.")
  /\ Permutation (priority_order weights)
       (filter (fun l => 0 <? weight l) (entries weights))
  /\ (forall l, In l (priority_order weights) <->
                In l (entries weights) /\ (0 <? weight l) = true)
  /\ StronglySorted before (priority_order weights).
Proof.
  intros H.
  split; [exact (semanticWeightedFusion_output _ _ _ _ H)|].
  split; [exact (priority_order_Permutation weights)|].
  split; [|exact (priority_order_sorted weights)].
  intros l. rewrite <- (filter_In (fun l => 0 <? weight l)).
  split; apply Permutation_in;
    [|apply Permutation_sym]; exact (priority_order_Permutation weights).
Qed.

(** Example 3 of the specification, by way of C4. *)
Lemma directive_priority_list_witness :
  let weights := {| base := Some 0.2; brain := Some 0.3; persona := Some 0.5 |} in
  within_tolerance weights = true
  /\ semanticWeightedFusion (lit "B") (lit "C") (lit "P") weights =
       Return (lit "[BASE LAYER - MODERATE GUIDANCE]" ++ LF ++ lit "B" ++ LF ++ LF
               ++ lit "[BRAIN CONFIGURATION - MODERATE GUIDANCE]" ++ LF
               ++ lit "C" ++ LF ++ LF
               ++ lit "[PERSONA INSTRUCTIONS - HIGH IMPORTANCE]" ++ LF
               ++ lit "P" ++ LF ++ LF ++ LF
               ++ lit "[CONFLICT RESOLUTION RULES]" ++ LF
               ++ lit "When instructions conflict, apply this priority order:"
               ++ LF
               ++ lit "1. PERSONA instructions (weight: 0.5)" ++ LF
               ++ lit "2. BRAIN instructions (weight: 0.3)" ++ LF
               ++ lit "3. BASE instructions (weight: 0.2)" ++ LF ++ LF
               ++ lit "Always prioritize higher-weighted layers when resolving conflicts.").
Proof.
  intros weights. split; [reflexivity|].
  exact (proj1 (directive_priority_list (lit "B") (lit "C") (lit "P") weights
                  eq_refl)).
Defined.

(** Equal weights keep the fixed order, and a single positive weight
    still gets its one-entry list. *)
Example priority_order_examples :
  List.map name
    (priority_order
       {| base := Some 0.25; brain := Some 0.5; persona := Some 0.25 |})
  = [lit "BRAIN"; lit "PERSONA"; lit "BASE"]
  /\ semanticWeightedFusion [] [] []
       {| base := Some 1.0; brain := Some 0; persona := Some 0 |}
     = Return (lit "[CONFLICT RESOLUTION RULES]" ++ LF
               ++ lit "When instructions conflict, apply this priority order:"
               ++ LF
               ++ lit "1. BASE instructions (weight: 1)" ++ LF ++ LF
               ++ lit "Always prioritize higher-weighted layers when resolving conflicts.").
Proof. split; vm_compute; reflexivity. Qed.

(** C9.  The directive of semantic fusion is a function of the weights
    alone: whatever the three texts, the result ends in the same
    directive, and a layer whose weight is above zero but whose text is
    empty has no block and is still an entry of the priority list. *)
Theorem directive_ignores_texts
  (basePrompt brainPrompt personaPrompt : jsstring) (weights : Weights) :
  within_tolerance weights = true ->
  semanticWeightedFusion basePrompt brainPrompt personaPrompt weights =
    Return (separate
              (semantic_block (lit "[BASE LAYER - ") basePrompt
                 (default 0.5 (base weights))
               ++ semantic_block (lit "[BRAIN CONFIGURATION - ") brainPrompt
                    (default 0.3 (brain weights))
               ++ semantic_block (lit "[PERSONA INSTRUCTIONS - ") personaPrompt
                    (default 0.2 (persona weights)))
            ++ directive weights)
  /\ (forall otherBase otherBrain otherPersona : jsstring,
        exists blocks,
          semanticWeightedFusion otherBase otherBrain otherPersona weights
          = Return (blocks ++ directive weights))
  /\ (forall marker weight, semantic_block marker [] weight = [])
  /\ ((0 <? default 0.5 (base weights)) = true ->
      In {| name := lit "BASE"; weight := default 0.5 (base weights) |}
        (priority_order weights))
  /\ ((0 <? default 0.3 (brain weights)) = true ->
      In {| name := lit "BRAIN"; weight := default 0.3 (brain weights) |}
        (priority_order weights))
  /\ ((0 <? default 0.2 (persona weights)) = true ->
      In {| name := lit "PERSONA"; weight := default 0.2 (persona weights) |}
        (priority_order weights)).
Proof.
  intros H.
  split; [exact (semanticWeightedFusion_output _ _ _ _ H)|].
  split.
  { intros b r p. eexists. exact (semanticWeightedFusion_output b r p _ H). }
  split; [reflexivity|].
  split; [|split]; intros Hw; apply positive_entry_listed;
    try exact Hw; unfold entries; cbn [In]; auto.
Qed.

(** The base layer left empty: no base block, and BASE is entry 3. *)
Lemma directive_ignores_texts_witness :
  let weights := {| base := Some 0.2; brain := Some 0.3; persona := Some 0.5 |} in
  within_tolerance weights = true
  /\ semanticWeightedFusion [] (lit "C") (lit "P") weights =
       Return (lit "[BRAIN CONFIGURATION - MODERATE GUIDANCE]" ++ LF
               ++ lit "C" ++ LF ++ LF
               ++ lit "[PERSONA INSTRUCTIONS - HIGH IMPORTANCE]" ++ LF
               ++ lit "P" ++ LF ++ LF ++ LF
               ++ lit "[CONFLICT RESOLUTION RULES]" ++ LF
               ++ lit "When instructions conflict, apply this priority order:"
               ++ LF
               ++ lit "1. PERSONA instructions (weight: 0.5)" ++ LF
               ++ lit "2. BRAIN instructions (weight: 0.3)" ++ LF
               ++ lit "3. BASE instructions (weight: 0.2)" ++ LF ++ LF
               ++ lit "Always prioritize higher-weighted layers when resolving conflicts.").
Proof.
  intros weights. split; [reflexivity|].
  exact (proj1 (directive_ignores_texts [] (lit "C") (lit "P") weights eq_refl)).
Defined.

End Directive.

(** * Part 10. Conflict detection *)

Module Conflicts.
Import Spec.
Import PromptFusionEngine.

Lemma forEach_push (cond : RegExp -> RegExp -> bool) (mk : jsstring -> Conflict)
  (l : list (RegExp * RegExp * jsstring)) :
  forall (index : float) (conflicts : list Conflict),
    forEach
      (fun '(pattern1, pattern2, ty) (_ : float) conflicts =>
         if cond pattern1 pattern2 then conflicts ++ [mk ty] else conflicts)
      l index conflicts
    = conflicts
        ++ flat_map
             (fun '(pattern1, pattern2, ty) =>
                if cond pattern1 pattern2 then [mk ty] else [])
             l.
Proof.
  induction l as [ | [[p1 p2] ty] l IH]; intros index conflicts;
    cbn [forEach flat_map].
  - symmetry. apply app_nil_r.
  - rewrite IH. destruct (cond p1 p2); cbn [app];
      rewrite <- ?app_assoc; reflexivity.
Qed.

(** The two loops visit base-brain, base-persona and brain-persona, in
    this order. *)
Lemma detectConflicts_pairs (basePrompt brainPrompt personaPrompt : jsstring) :
  detectConflicts basePrompt brainPrompt personaPrompt =
    pair_conflicts (lit "base") basePrompt (lit "brain") brainPrompt
    ++ pair_conflicts (lit "base") basePrompt (lit "persona") personaPrompt
    ++ pair_conflicts (lit "brain") brainPrompt (lit "persona") personaPrompt.
Proof.
  unfold detectConflicts, for_range.
  cbn [List.length List.map fst seq fold_left Nat.sub Nat.add nth].
  change (own_property _ (lit "base")) with (Some basePrompt).
  change (own_property _ (lit "brain")) with (Some brainPrompt).
  change (own_property _ (lit "persona")) with (Some personaPrompt).
  cbn [default]. unfold pair_conflicts.
  destruct (truthy basePrompt), (truthy brainPrompt), (truthy personaPrompt);
    cbn [negb orb andb app]; rewrite ?forEach_push;
    cbn [app]; rewrite ?app_nil_r, <- ?app_assoc; reflexivity.
Qed.

Lemma truthy_iff (s : jsstring) : truthy s = true <-> s <> [].
Proof. destruct s; cbn; split; congruence. Qed.

Lemma In_pair_conflicts (n1 t1 n2 t2 : jsstring) (c : Conflict) :
  In c (pair_conflicts n1 t1 n2 t2) <->
  t1 <> [] /\ t2 <> []
  /\ exists pattern1 pattern2 ty,
       In (pattern1, pattern2, ty) opposingPatterns
       /\ opposed pattern1 pattern2 t1 t2 = true
       /\ c = conflict ty n1 n2.
Proof.
  unfold pair_conflicts. rewrite <- !truthy_iff.
  destruct (truthy t1), (truthy t2); cbn [andb];
    try (split; [intros [] | intros (? & ? & _); discriminate]).
  rewrite in_flat_map. split.
  - intros ([[p1 p2] ty] & Hin & Hc).
    destruct (opposed p1 p2 t1 t2) eqn:E; [|destruct Hc].
    destruct Hc as [<- | []]. repeat split. exists p1, p2, ty. auto.
  - intros (_ & _ & p1 & p2 & ty & Hin & E & ->).
    exists (p1, p2, ty). split; [exact Hin|]. rewrite E. left. reflexivity.
Qed.

Lemma In_detectConflicts (basePrompt brainPrompt personaPrompt : jsstring)
  (c : Conflict) :
  In c (detectConflicts basePrompt brainPrompt personaPrompt) <->
  exists n1 t1 n2 t2 pattern1 pattern2 ty,
    In ((n1, t1), (n2, t2)) (layer_pairs basePrompt brainPrompt personaPrompt)
    /\ In (pattern1, pattern2, ty) opposingPatterns
    /\ t1 <> [] /\ t2 <> []
    /\ opposed pattern1 pattern2 t1 t2 = true
    /\ c = conflict ty n1 n2.
Proof.
  rewrite detectConflicts_pairs, !in_app_iff, !In_pair_conflicts.
  unfold layer_pairs. cbn [In]. split.
  - intros [H | [H | H]]; destruct H as (H1 & H2 & p1 & p2 & ty & Hin & E & ->).
    + exists (lit "base"), basePrompt, (lit "brain"), brainPrompt, p1, p2, ty.
      auto 10.
    + exists (lit "base"), basePrompt, (lit "persona"), personaPrompt, p1, p2, ty.
      auto 10.
    + exists (lit "brain"), brainPrompt, (lit "persona"), personaPrompt, p1, p2, ty.
      auto 10.
  - intros (n1 & t1 & n2 & t2 & p1 & p2 & ty & Hpair & Hin & H1 & H2 & E & ->).
    destruct Hpair as [Hp | [Hp | [Hp | []]]]; inversion Hp; subst;
      [left | right; left | right; right];
      (split; [exact H1|split; [exact H2|]]); exists p1, p2, ty; auto.
Qed.

Ltac distinct_literals :=
  match goal with
  | H : lit _ = lit _ |- _ => vm_compute in H; discriminate H
  end.

Lemma pattern_by_type (p1 p2 q1 q2 : RegExp) (ty : jsstring) :
  In (p1, p2, ty) opposingPatterns -> In (q1, q2, ty) opposingPatterns ->
  p1 = q1 /\ p2 = q2.
Proof.
  unfold opposingPatterns. cbn [In].
  intros [H | [H | [H | [H | []]]]] [H' | [H' | [H' | [H' | []]]]];
    injection H as <- <- Ht; injection H' as <- <- Ht';
    first [split; reflexivity | rewrite <- Ht in Ht'; distinct_literals].
Qed.

Lemma pair_by_names (basePrompt brainPrompt personaPrompt : jsstring)
  (n1 t1 n2 t2 u1 u2 : jsstring) :
  In ((n1, t1), (n2, t2)) (layer_pairs basePrompt brainPrompt personaPrompt) ->
  In ((n1, u1), (n2, u2)) (layer_pairs basePrompt brainPrompt personaPrompt) ->
  t1 = u1 /\ t2 = u2.
Proof.
  unfold layer_pairs. cbn [In].
  intros [H | [H | [H | []]]] [H' | [H' | [H' | []]]];
    injection H as N1 <- N2 <-; injection H' as N1' <- N2' <-;
    first [ split; reflexivity
          | rewrite <- N1 in N1'; distinct_literals
          | rewrite <- N2 in N2'; distinct_literals ].
Qed.

(** C7.  [detectConflicts] is a total function of the three texts, and
    for every pair of layers whose two texts are non-empty and each of
    the four opposition pairs (verbosity, tone, speed, approach, all
    matched without regard to case) the result holds a record of that
    type between those two layers exactly when one text matches the
    first pattern and the other the second, in either assignment; when
    no pair is opposed the result is empty. *)
Theorem detectConflicts_records
  (basePrompt brainPrompt personaPrompt : jsstring) :
  (forall n1 t1 n2 t2 pattern1 pattern2 ty,
     In ((n1, t1), (n2, t2)) (layer_pairs basePrompt brainPrompt personaPrompt) ->
     In (pattern1, pattern2, ty) opposingPatterns ->
     t1 <> [] -> t2 <> [] ->
     ((exists c,
         In c (detectConflicts basePrompt brainPrompt personaPrompt)
         /\ type c = ty /\ layer1 c = n1 /\ layer2 c = n2)
      <-> opposed pattern1 pattern2 t1 t2 = true)
     /\ (In (conflict ty n1 n2)
           (detectConflicts basePrompt brainPrompt personaPrompt)
         <-> opposed pattern1 pattern2 t1 t2 = true))
  /\ ((forall n1 t1 n2 t2 pattern1 pattern2 ty,
         In ((n1, t1), (n2, t2))
           (layer_pairs basePrompt brainPrompt personaPrompt) ->
         In (pattern1, pattern2, ty) opposingPatterns ->
         opposed pattern1 pattern2 t1 t2 = false) ->
      detectConflicts basePrompt brainPrompt personaPrompt = [])
  /\ List.map snd opposingPatterns =
       [lit "verbosity"; lit "tone"; lit "speed"; lit "approach"]
  /\ Forall (fun '(pattern1, pattern2, _) =>
               ignoreCase pattern1 = true /\ ignoreCase pattern2 = true)
       opposingPatterns.
Proof.
  split; [|split; [|split; [reflexivity|repeat constructor]]].
  - intros n1 t1 n2 t2 p1 p2 ty Hpair Hpat H1 H2.
    assert (Hback : opposed p1 p2 t1 t2 = true ->
                    In (conflict ty n1 n2)
                      (detectConflicts basePrompt brainPrompt personaPrompt)).
    { intros E. apply In_detectConflicts.
      exists n1, t1, n2, t2, p1, p2, ty. auto 10. }
    assert (Hforth : forall c,
               In c (detectConflicts basePrompt brainPrompt personaPrompt) ->
               type c = ty -> layer1 c = n1 -> layer2 c = n2 ->
               opposed p1 p2 t1 t2 = true).
    { intros c Hc Hty Hl1 Hl2. apply In_detectConflicts in Hc.
      destruct Hc as (m1 & u1 & m2 & u2 & q1 & q2 & ty' & Hpair' & Hpat'
                      & _ & _ & E & ->).
      cbn [conflict type layer1 layer2] in Hty, Hl1, Hl2. subst ty' m1 m2.
      destruct (pattern_by_type _ _ _ _ _ Hpat Hpat') as [-> ->].
      destruct (pair_by_names _ _ _ _ _ _ _ _ _ Hpair Hpair') as [-> ->].
      exact E. }
    split; split.
    + intros (c & Hc & Hty & Hl1 & Hl2). exact (Hforth c Hc Hty Hl1 Hl2).
    + intros E. exists (conflict ty n1 n2). auto.
    + intros Hc. exact (Hforth _ Hc eq_refl eq_refl eq_refl).
    + exact Hback.
  - intros Hnone.
    destruct (detectConflicts basePrompt brainPrompt personaPrompt)
      as [ | c cs] eqn:E; [reflexivity|].
    assert (Hc : In c (detectConflicts basePrompt brainPrompt personaPrompt))
      by (rewrite E; left; reflexivity).
    apply In_detectConflicts in Hc.
    destruct Hc as (n1 & t1 & n2 & t2 & p1 & p2 & ty & Hpair & Hpat
                    & _ & _ & Ho & _).
    rewrite (Hnone _ _ _ _ _ _ _ Hpair Hpat) in Ho. discriminate Ho.
Qed.

(** Example 1 of the specification, with the persona text in capitals. *)
Example detectConflicts_example :
  detectConflicts (lit "Be verbose and detailed.")
    (lit "Maintain moderate length.") (lit "Be extremely CONCISE.")
  = [conflict (lit "verbosity") (lit "base") (lit "persona")]
  /\ detectConflicts (lit "Be formal.") [] (lit "Be casual and quick.") =
       [conflict (lit "tone") (lit "base") (lit "persona")]
  /\ detectConflicts [] [] [] = [].
Proof. repeat split; vm_compute; reflexivity. Qed.

(** ** One record at most for each pair and type *)

Lemma selected_app (l l' : list (bool * Conflict)) :
  selected (l ++ l') = selected l ++ selected l'.
Proof. unfold selected. rewrite filter_app. apply map_app. Qed.

Lemma pair_conflicts_selected (n1 t1 n2 t2 : jsstring) :
  pair_conflicts n1 t1 n2 t2 = selected (pair_candidates n1 t1 n2 t2).
Proof.
  unfold pair_conflicts, pair_candidates, selected.
  induction opposingPatterns as [ | [[p1 p2] ty] l IH].
  - destruct (truthy t1 && truthy t2); reflexivity.
  - cbn [flat_map List.map filter fst].
    destruct (truthy t1 && truthy t2); cbn [andb] in *.
    + destruct (opposed p1 p2 t1 t2); cbn [List.map snd app]; rewrite IH;
        reflexivity.
    + exact IH.
Qed.

Lemma detectConflicts_selected
  (basePrompt brainPrompt personaPrompt : jsstring) :
  detectConflicts basePrompt brainPrompt personaPrompt =
    selected (candidates basePrompt brainPrompt personaPrompt).
Proof.
  rewrite detectConflicts_pairs. unfold candidates.
  rewrite !selected_app, !pair_conflicts_selected. reflexivity.
Qed.

Lemma selected_NoDup {K : Type} (k : Conflict -> K) (l : list (bool * Conflict)) :
  NoDup (List.map k (List.map snd l)) -> NoDup (List.map k (selected l)).
Proof.
  unfold selected. induction l as [ | [b c] l IH]; cbn [List.map filter fst snd].
  - trivial.
  - intros H. inversion H as [ | ? ? Hnot Hrest]; subst.
    destruct b; cbn [List.map snd]; [|exact (IH Hrest)].
    constructor; [|exact (IH Hrest)].
    intros Hin. apply Hnot. rewrite in_map_iff in *.
    destruct Hin as (x & Hx & Hin). exists x. split; [exact Hx|].
    rewrite in_map_iff in *. destruct Hin as (y & Hy & Hin).
    exists y. split; [exact Hy|]. apply filter_In in Hin. apply Hin.
Qed.

Lemma selected_Forall (P : Conflict -> Prop) (l : list (bool * Conflict)) :
  Forall P (List.map snd l) -> Forall P (selected l).
Proof.
  unfold selected. rewrite !Forall_forall. intros H c Hc. apply H.
  rewrite in_map_iff in *. destruct Hc as (x & Hx & Hin).
  exists x. split; [exact Hx|]. apply filter_In in Hin. apply Hin.
Qed.

Lemma selected_length (l : list (bool * Conflict)) :
  List.length (selected l) <= List.length l.
Proof. unfold selected. rewrite length_map. apply filter_length_le. Qed.

Lemma candidate_records (basePrompt brainPrompt personaPrompt : jsstring) :
  List.map snd (candidates basePrompt brainPrompt personaPrompt)
  = List.map snd (candidates [] [] []).
Proof. reflexivity. Qed.

Lemma literal_keys_differ (a b c a' b' c' : string) :
  string_eqb (lit a ++ lit "/" ++ lit b ++ lit "/" ++ lit c)
    (lit a' ++ lit "/" ++ lit b' ++ lit "/" ++ lit c') = false ->
  (lit a, lit b, lit c) <> (lit a', lit b', lit c').
Proof.
  intros H E. injection E as E1 E2 E3. rewrite E1, E2, E3 in H.
  assert (R : forall s, string_eqb s s = true).
  { induction s as [ | x s IH]; cbn [string_eqb]; [reflexivity|].
    rewrite N.eqb_refl. exact IH. }
  rewrite R in H. discriminate H.
Qed.

Lemma all_keys_NoDup : NoDup all_keys.
Proof.
  unfold all_keys, candidates, pair_candidates, opposingPatterns, key, conflict.
  cbn [List.map app snd type layer1 layer2].
  repeat (constructor;
          [ cbn [In]; intros H;
            repeat (destruct H as [H | H];
                    [ revert H; apply literal_keys_differ; vm_compute;
                      reflexivity | ]);
            exact H | ]).
  constructor.
Qed.

Lemma detectConflicts_shape
  (basePrompt brainPrompt personaPrompt : jsstring) :
  Forall
    (fun c =>
       In (type c) [lit "verbosity"; lit "tone"; lit "speed"; lit "approach"]
       /\ precedes (layer1 c) (layer2 c)
       /\ layer1 c <> layer2 c)
    (detectConflicts basePrompt brainPrompt personaPrompt).
Proof.
  rewrite detectConflicts_selected.
  apply selected_Forall. rewrite candidate_records.
  unfold candidates, pair_candidates, opposingPatterns, conflict.
  cbn [List.map app snd type layer1 layer2].
  repeat (constructor;
          [ split; [cbn [In]; tauto|];
            split; [vm_compute; lia | intros E; vm_compute in E; discriminate E]
          | ]).
  constructor.
Qed.

(** C10.  Whatever the three texts, the records [detectConflicts]
    returns are pairwise distinct in their two layers and type, there
    are at most twelve of them, the type of each is one of verbosity,
    tone, speed, approach, and in each the first layer strictly precedes
    the second in the order base, brain, persona, so that the two layers
    differ and no record has the layers of another one swapped. *)
Theorem detectConflicts_bounded
  (basePrompt brainPrompt personaPrompt : jsstring) :
  NoDup (List.map (fun c => (layer1 c, layer2 c, type c))
           (detectConflicts basePrompt brainPrompt personaPrompt))
  /\ List.length (detectConflicts basePrompt brainPrompt personaPrompt) <= 12
  /\ Forall
       (fun c =>
          In (type c) [lit "verbosity"; lit "tone"; lit "speed"; lit "approach"]
          /\ precedes (layer1 c) (layer2 c)
          /\ layer1 c <> layer2 c)
       (detectConflicts basePrompt brainPrompt personaPrompt)
  /\ (forall c c',
        In c (detectConflicts basePrompt brainPrompt personaPrompt) ->
        In c' (detectConflicts basePrompt brainPrompt personaPrompt) ->
        ~ (layer1 c = layer2 c' /\ layer2 c = layer1 c')).
Proof.
  pose proof (detectConflicts_shape basePrompt brainPrompt personaPrompt) as F.
  split; [|split; [|split; [exact F|]]].
  - rewrite detectConflicts_selected.
    apply (selected_NoDup key). rewrite candidate_records.
    exact all_keys_NoDup.
  - rewrite detectConflicts_selected.
    exact (selected_length (candidates basePrompt brainPrompt personaPrompt)).
  - rewrite Forall_forall in F. intros c c' Hc Hc' [E1 E2].
    destruct (F c Hc) as (_ & P & _). destruct (F c' Hc') as (_ & P' & _).
    rewrite E1, E2 in P. unfold precedes in P, P'.
    destruct (position (layer1 c')), (position (layer2 c')); lia || tauto.
Qed.

End Conflicts.

(** * Part 11. Strategy dispatch *)

Module Dispatch.
Import PromptFusionEngine.

(** A name that is neither a key of [fusionStrategies] nor a property
    of Object.prototype is rejected, and no function is called. *)
Lemma fusePrompts_unknown_name (layers : PromptLayers) (strategy : jsstring)
  (weights : option Weights) :
  own_property fusionStrategies strategy = None ->
  own_property Object_prototype strategy = None ->
  fusePrompts layers (Some strategy) weights =
    Throw (Error (lit "Unknown fusion strategy: " ++ strategy)).
Proof.
  intros H1 H2. unfold fusePrompts, Get. cbn [default]. rewrite H1, H2.
  reflexivity.
Qed.

Lemma fusePrompts_known_name (layers : PromptLayers) (weights : Weights) :
  fusePrompts layers (Some (lit "weighted")) (Some weights) =
    match weightedFusion (base layers) (brain layers) (persona layers) weights
    with
    | Return s => Return (VString s)
    | Throw e => Throw e
    end
  /\ fusePrompts layers None (Some weights) =
       fusePrompts layers (Some (lit "semanticWeighted")) (Some weights)
  /\ fusePrompts layers (Some (lit "semanticWeighted")) (Some weights) =
       match semanticWeightedFusion (base layers) (brain layers)
               (persona layers) weights with
       | Return s => Return (VString s)
       | Throw e => Throw e
       end.
Proof. repeat split. Qed.

(** C2, on the code.  The name [bogus] is rejected with an error that
    names it, but a name that Object.prototype defines is found by the
    lookup [this.fusionStrategies[strategy]] and called: [toString]
    returns the text [[object Undefined]] and [constructor] returns the
    base text wrapped in a String object, with no error raised. *)
Theorem fusePrompts_inherited_names (layers : PromptLayers)
  (weights : option Weights) :
  fusePrompts layers (Some (lit "toString")) weights =
    Return (VString (lit "[object Undefined]"))
  /\ fusePrompts layers (Some (lit "constructor")) weights =
       Return (VStringObject (base layers))
  /\ fusePrompts layers (Some (lit "bogus")) weights =
       Throw (Error (lit "Unknown fusion strategy: bogus")).
Proof.
  split; [reflexivity|]. split; [reflexivity|].
  exact (fusePrompts_unknown_name layers (lit "bogus") weights eq_refl eq_refl).
Qed.

End Dispatch.

(** * Part 12. The weight resolver *)

Module WeightResolver.
Import Spec.
Import PromptFusionEngine WeightDetermination StringFacts Validation.
Local Open Scope float_scope.

Lemma length_trim_positive (s : jsstring) :
  (0 <? List.length (trim s))%nat = negb (forallb isTrimmed s).
Proof.
  destruct (forallb isTrimmed s) eqn:E.
  - apply trim_nil_iff in E. rewrite E. reflexivity.
  - destruct (trim s) as [ | c t] eqn:T; [|reflexivity].
    apply trim_nil_iff in T. congruence.
Qed.

Lemma determineWeights_cases (personaId personaContent : option jsstring) :
  determineWeights personaId personaContent =
    if inactive personaId || blank personaContent
    then brain_dominant else persona_dominant.
Proof.
  unfold determineWeights, inactive, blank.
  destruct personaId as [id | ], personaContent as [content | ];
    cbn [default truthy andb orb negb]; try reflexivity.
  - rewrite length_trim_positive.
    destruct id as [ | c id]; cbn [truthy negb andb orb]; [reflexivity|].
    destruct (string_eqb (c :: id) (lit "default")); cbn [negb andb orb];
      [reflexivity|].
    destruct content as [ | d content]; [reflexivity|].
    cbn [truthy andb]. destruct (forallb isTrimmed (d :: content)); reflexivity.
  - destruct (truthy id && negb (string_eqb id (lit "default")));
      cbn [andb]; rewrite orb_true_r; reflexivity.
Qed.

Lemma exact_sum_returns (basePrompt brainPrompt personaPrompt : jsstring)
  (weights : Weights) :
  weightSum weights = 1 ->
  (exists s, weightedFusion basePrompt brainPrompt personaPrompt weights
             = Return s)
  /\ (exists s, semanticWeightedFusion basePrompt brainPrompt personaPrompt
                  weights = Return s).
Proof.
  unfold weightSum, weightedFusion, semanticWeightedFusion. intros ->.
  change (0.001 <? abs (1 - 1.0)) with false. cbv iota.
  split; eexists; reflexivity.
Qed.

(** C8.  [determineWeights] returns [{base: 0.4, brain: 0.6, persona: 0.0}]
    when the persona overlay is inactive or its content is empty or white
    space only, and [{base: 0.2, brain: 0.3, persona: 0.5}] otherwise; the
    binary64 sum of either distribution is exactly 1, so both fusion
    functions accept what it returns. *)
Theorem determineWeights_policy
  (personaId personaContent : option jsstring) :
  determineWeights personaId personaContent =
    (if inactive personaId || blank personaContent
     then brain_dominant else persona_dominant)
  /\ weightSum (determineWeights personaId personaContent) = 1
  /\ forall basePrompt brainPrompt personaPrompt : jsstring,
       (exists s, weightedFusion basePrompt brainPrompt personaPrompt
                    (determineWeights personaId personaContent) = Return s)
       /\ (exists s, semanticWeightedFusion basePrompt brainPrompt personaPrompt
                       (determineWeights personaId personaContent) = Return s).
Proof.
  assert (S : weightSum (determineWeights personaId personaContent) = 1).
  { rewrite determineWeights_cases.
    destruct (inactive personaId || blank personaContent); reflexivity. }
  split; [apply determineWeights_cases|].
  split; [exact S|].
  intros b r p. apply exact_sum_returns, S.
Qed.

End WeightResolver.

(** * Part 13. The engine at its edges *)

Module Edges.
Import Spec Rank PromptFusionEngine Validation Assembly Directive StringFacts.
Local Open Scope float_scope.

(** ** NaN *)

Lemma not_number_nan (x : float) : (x =? x) = false -> Prim2SF x = S754_nan.
Proof.
  intros H. destruct (Binary64.nan_dec (Prim2SF x)) as [E | E]; [exact E|].
  apply Binary64.eqb_refl_number in E. congruence.
Qed.

Lemma add_nan_l (x y : float) :
  Prim2SF x = S754_nan -> Prim2SF (x + y) = S754_nan.
Proof.
  intros H. rewrite FloatAxioms.add_spec, H. reflexivity.
Qed.

Lemma add_nan_r (x y : float) :
  Prim2SF y = S754_nan -> Prim2SF (x + y) = S754_nan.
Proof.
  intros H. rewrite FloatAxioms.add_spec, H.
  destruct (Prim2SF x); reflexivity.
Qed.

Lemma ltb_nan_r (x y : float) : Prim2SF y = S754_nan -> (x <? y) = false.
Proof.
  intros H. rewrite FloatAxioms.ltb_spec, H. unfold SFltb.
  rewrite Binary64.SFcompare_nan_r. reflexivity.
Qed.

Lemma nan_distance (x : float) :
  Prim2SF x = S754_nan -> (0.001 <? abs (x - 1.0)) = false.
Proof.
  intros H. apply ltb_nan_r.
  rewrite FloatAxioms.abs_spec, FloatAxioms.sub_spec, H. reflexivity.
Qed.

Lemma nan_weight_nan_sum (weights : Weights) :
  (default 0.5 (base weights) =? default 0.5 (base weights)) = false
  \/ (default 0.3 (brain weights) =? default 0.3 (brain weights)) = false
  \/ (default 0.2 (persona weights) =? default 0.2 (persona weights)) = false ->
  Prim2SF (weightSum weights) = S754_nan.
Proof.
  unfold weightSum. intros [H | [H | H]]; apply not_number_nan in H.
  - apply add_nan_l, add_nan_l, H.
  - apply add_nan_l, add_nan_r, H.
  - apply add_nan_r, H.
Qed.

(** A weight that is NaN is not caught by the validation: the sum is
    NaN, the test [Math.abs(weightSum - 1.0) > 0.001] is false, and both
    fusion functions return a string in which the layer of that weight
    has no block. *)
Theorem nan_weight_accepted
  (basePrompt brainPrompt personaPrompt : jsstring) (weights : Weights) :
  (default 0.5 (base weights) =? default 0.5 (base weights)) = false
  \/ (default 0.3 (brain weights) =? default 0.3 (brain weights)) = false
  \/ (default 0.2 (persona weights) =? default 0.2 (persona weights)) = false ->
  outside_tolerance weights = false
  /\ within_tolerance weights = false
  /\ weightedFusion basePrompt brainPrompt personaPrompt weights =
       Return (trim (numeric_blocks basePrompt brainPrompt personaPrompt
                       weights))
  /\ (exists s,
        semanticWeightedFusion basePrompt brainPrompt personaPrompt weights
        = Return s)
  /\ (forall text weight, (weight =? weight) = false ->
                          emitted text weight = false).
Proof.
  intros H. apply nan_weight_nan_sum in H.
  assert (O : outside_tolerance weights = false)
    by (apply nan_distance, H).
  split; [exact O|]. split.
  { unfold within_tolerance. rewrite FloatAxioms.leb_spec.
    rewrite FloatAxioms.abs_spec, FloatAxioms.sub_spec, H. reflexivity. }
  split.
  { unfold outside_tolerance, weightSum in O.
    unfold weightedFusion, numeric_blocks, numeric_block, emitted. rewrite O.
    destruct (truthy basePrompt && (0 <? default 0.5 (base weights)));
      destruct (truthy brainPrompt && (0 <? default 0.3 (brain weights)));
      destruct (truthy personaPrompt && (0 <? default 0.2 (persona weights)));
      cbn [app]; rewrite ?app_nil_r, <- ?app_assoc; reflexivity. }
  split; [exact (semanticWeightedFusion_accepts _ _ _ _ O)|].
  intros text weight N. unfold emitted.
  rewrite (ltb_nan_r 0 weight (not_number_nan weight N)). apply andb_false_r.
Qed.

(** The base weight NaN: no error, and no base block. *)
Lemma nan_weight_accepted_witness :
  let weights := {| base := Some nan; brain := Some 0.5; persona := Some 0.5 |} in
  (default 0.5 (base weights) =? default 0.5 (base weights)) = false
  /\ weightedFusion (lit "B") (lit "C") (lit "P") weights =
       Return (lit "[BRAIN_WEIGHT:0.5]" ++ LF ++ lit "C" ++ LF ++ LF
               ++ lit "[PERSONA_WEIGHT:0.5]" ++ LF ++ lit "P").
Proof.
  intros weights. split; [reflexivity|].
  exact (proj1 (proj2 (proj2 (nan_weight_accepted (lit "B") (lit "C") (lit "P")
                                weights (or_introl eq_refl))))).
Defined.

(** ** The labels grow with the weight *)

Lemma emphasis_levels :
  (emphasis_level CRITICAL = 3 /\ emphasis_level HIGH = 2
   /\ emphasis_level MODERATE = 1 /\ emphasis_level OPTIONAL = 0)%nat.
Proof. repeat split; vm_compute; reflexivity. Qed.

(** [getSemanticEmphasis] is monotone: a weight that is not smaller never
    gets a weaker label. *)
Theorem emphasis_monotone (lighter heavier : float) :
  (lighter <=? heavier) = true ->
  (emphasis_level (getSemanticEmphasis lighter)
   <= emphasis_level (getSemanticEmphasis heavier))%nat.
Proof.
  intros H. destruct emphasis_levels as (L3 & L2 & L1 & L0).
  unfold getSemanticEmphasis.
  fold CRITICAL HIGH MODERATE OPTIONAL.
  destruct (0.6 <=? lighter) eqn:A6.
  { rewrite (Binary64.leb_trans _ _ _ A6 H). lia. }
  destruct (0.4 <=? lighter) eqn:A4.
  { rewrite (Binary64.leb_trans _ _ _ A4 H).
    destruct (0.6 <=? heavier); lia. }
  destruct (0.2 <=? lighter) eqn:A2.
  { rewrite (Binary64.leb_trans _ _ _ A2 H).
    destruct (0.6 <=? heavier), (0.4 <=? heavier); lia. }
  rewrite L0. lia.
Qed.

Lemma emphasis_monotone_witness :
  (0.3 <=? 0.5) = true
  /\ (emphasis_level (getSemanticEmphasis 0.3)
      <= emphasis_level (getSemanticEmphasis 0.5))%nat.
Proof. split; [reflexivity | exact (emphasis_monotone 0.3 0.5 eq_refl)]. Defined.

(** ** The empty result *)

Lemma trim_kept_head (c : code_unit) (t : jsstring) :
  isTrimmed c = false -> trim (c :: t) <> [].
Proof.
  intros H E. apply trim_nil_iff in E. cbn [forallb] in E.
  rewrite H in E. discriminate E.
Qed.

Lemma numeric_block_marked (marker text : jsstring) (weight : float) :
  exists t,
    numeric_block (91%N :: marker) text weight =
      if emitted text weight then 91%N :: t else [].
Proof.
  unfold numeric_block.
  destruct (emitted text weight); [eexists | exists []]; reflexivity.
Qed.

(** Numeric fusion returns the empty string exactly when no layer is
    emitted (every text empty or every weight not above zero); semantic
    fusion never returns the empty string, the directive is always
    there. *)
Theorem empty_result
  (basePrompt brainPrompt personaPrompt : jsstring) (weights : Weights) :
  within_tolerance weights = true ->
  (weightedFusion basePrompt brainPrompt personaPrompt weights = Return []
   <-> emitted basePrompt (default 0.5 (base weights)) = false
       /\ emitted brainPrompt (default 0.3 (brain weights)) = false
       /\ emitted personaPrompt (default 0.2 (persona weights)) = false)
  /\ semanticWeightedFusion basePrompt brainPrompt personaPrompt weights
     <> Return [].
Proof.
  intros H. split.
  - rewrite (weightedFusion_blocks _ _ _ _ H). unfold numeric_blocks.
    change (lit "[BASE_WEIGHT:") with (91%N :: lit "BASE_WEIGHT:").
    change (lit "[BRAIN_WEIGHT:") with (91%N :: lit "BRAIN_WEIGHT:").
    change (lit "[PERSONA_WEIGHT:") with (91%N :: lit "PERSONA_WEIGHT:").
    destruct (numeric_block_marked (lit "BASE_WEIGHT:") basePrompt
                (default 0.5 (base weights))) as [t1 ->].
    destruct (numeric_block_marked (lit "BRAIN_WEIGHT:") brainPrompt
                (default 0.3 (brain weights))) as [t2 ->].
    destruct (numeric_block_marked (lit "PERSONA_WEIGHT:") personaPrompt
                (default 0.2 (persona weights))) as [t3 ->].
    destruct (emitted basePrompt _), (emitted brainPrompt _),
      (emitted personaPrompt _); cbn [app];
      try (split; [intros E; injection E as E;
                   exfalso; revert E; apply trim_kept_head; reflexivity
                  | intros (? & ? & ?); discriminate]).
    split; [auto | reflexivity].
  - rewrite (semanticWeightedFusion_output _ _ _ _ H).
    destruct (directive_shape weights) as [m ->]. intros E.
    injection E as E. apply app_eq_nil in E. destruct E as [_ E].
    discriminate E.
Qed.

(** Three empty texts: nothing from numeric fusion. *)
Lemma empty_result_witness :
  let weights := {| base := Some 0.2; brain := Some 0.3; persona := Some 0.5 |} in
  within_tolerance weights = true
  /\ weightedFusion [] [] [] weights = Return [].
Proof.
  intros weights. split; [reflexivity|].
  apply (proj1 (empty_result [] [] [] weights eq_refl)). repeat split.
Defined.

(** ** The entry point *)

(** [fusePrompts] with a supported strategy name, or none, returns a
    string when the sum of the weights is within the tolerance and fails
    with the error of the strategy, carrying the sum, when it is outside.
    With neither strategy nor weights it never fails: it is semantic
    fusion under the defaults, whose directive lists BASE (0.5), BRAIN
    (0.3), PERSONA (0.2). *)
Theorem fusePrompts_supported (layers : PromptLayers)
  (weights : option Weights) :
  let given := default no_weights weights in
  (within_tolerance given = true ->
   (exists s,
      fusePrompts layers (Some (lit "weighted")) weights = Return (VString s))
   /\ fusePrompts layers (Some (lit "semanticWeighted")) weights =
        Return (VString
                  (separate
                     (semantic_blocks (base layers) (brain layers)
                        (persona layers) given)
                   ++ directive given)))
  /\ (outside_tolerance given = true ->
      fusePrompts layers (Some (lit "weighted")) weights =
        Throw (Error (lit "Weights must sum to 1.0, got "
                        ++ Number.toString (weightSum given)
                        ++ lit ". Please adjust weights."))
      /\ fusePrompts layers (Some (lit "semanticWeighted")) weights =
           Throw (Error (lit "Weights must sum to 1.0, got "
                           ++ Number.toString (weightSum given))))
  /\ fusePrompts layers None weights =
       fusePrompts layers (Some (lit "semanticWeighted")) weights
  /\ fusePrompts layers None None =
       Return (VString
                 (separate
                    (semantic_blocks (base layers) (brain layers)
                       (persona layers) no_weights)
                  ++ directive no_weights))
  /\ priority_order no_weights =
       [ {| name := lit "BASE"; weight := 0.5 |};
         {| name := lit "BRAIN"; weight := 0.3 |};
         {| name := lit "PERSONA"; weight := 0.2 |} ].
Proof.
  intros given.
  assert (W : forall strategy f,
             Get fusionStrategies strategy = Some (Own f) ->
             fusePrompts layers (Some strategy) weights =
               match call_strategy f (base layers) (brain layers)
                       (persona layers) given with
               | Return s => Return (VString s)
               | Throw e => Throw e
               end).
  { intros strategy f G. unfold fusePrompts. cbn [default]. rewrite G.
    reflexivity. }
  split; [|split; [|split; [reflexivity|split]]].
  - intros H. split.
    + rewrite (W (lit "weighted") weighted eq_refl). cbn [call_strategy].
      rewrite (weightedFusion_blocks _ _ _ _ H). eexists. reflexivity.
    + rewrite (W (lit "semanticWeighted") semanticWeighted eq_refl).
      cbn [call_strategy].
      rewrite (semanticWeightedFusion_output _ _ _ _ H). reflexivity.
  - intros H. split.
    + rewrite (W (lit "weighted") weighted eq_refl). cbn [call_strategy].
      rewrite (weightedFusion_rejects _ _ _ _ H). reflexivity.
    + rewrite (W (lit "semanticWeighted") semanticWeighted eq_refl).
      cbn [call_strategy].
      rewrite (semanticWeightedFusion_rejects _ _ _ _ H). reflexivity.
  - unfold fusePrompts. cbn [default].
    change (Get fusionStrategies (lit "semanticWeighted"))
      with (Some (Own semanticWeighted)).
    cbn [call_strategy].
    rewrite (semanticWeightedFusion_output _ _ _ no_weights eq_refl).
    reflexivity.
  - vm_compute. reflexivity.
Qed.

End Edges.

(** * Part 14. How conflict detection matches *)

Module Matching.
Import Spec PromptFusionEngine Conflicts.

(** ** Letter case *)

Lemma canonicalize_idempotent (c : code_unit) :
  canonicalize true (canonicalize true c) = canonicalize true c.
Proof.
  unfold canonicalize. cbn [andb].
  destruct ((97 <=? c)%N && (c <=? 122)%N) eqn:E; [|rewrite E; reflexivity].
  apply andb_true_iff in E. destruct E as [E1 E2].
  apply N.leb_le in E1, E2.
  assert (H : (97 <=? c - 32)%N = false) by (apply N.leb_gt; lia).
  rewrite H. reflexivity.
Qed.

Lemma matches_here_fold (word text : jsstring) :
  matches_here true word (fold_case text) = matches_here true word text.
Proof.
  revert text. induction word as [ | p word IH]; intros [ | c text];
    cbn [matches_here fold_case List.map]; try reflexivity.
  rewrite canonicalize_idempotent. f_equal. apply IH.
Qed.

Lemma test_fold (re : RegExp) (text : jsstring) :
  ignoreCase re = true -> test re (fold_case text) = test re text.
Proof.
  intros H.
  assert (M : forall t, matches_at re (fold_case t) = matches_at re t).
  { intros t. unfold matches_at. rewrite H.
    induction (alternatives re) as [ | w ws IH]; cbn [existsb]; [reflexivity|].
    rewrite matches_here_fold, IH. reflexivity. }
  induction text as [ | c text IH].
  - reflexivity.
  - change (test re (fold_case (c :: text)))
      with (matches_at re (fold_case (c :: text)) || test re (fold_case text)).
    rewrite M, IH. reflexivity.
Qed.

Lemma truthy_fold (text : jsstring) : truthy (fold_case text) = truthy text.
Proof. destruct text; reflexivity. Qed.

Lemma pair_conflicts_fold (n1 t1 n2 t2 : jsstring) :
  pair_conflicts n1 (fold_case t1) n2 (fold_case t2)
  = pair_conflicts n1 t1 n2 t2.
Proof.
  unfold pair_conflicts, opposingPatterns, opposed. rewrite !truthy_fold.
  cbn [flat_map]. rewrite !test_fold by reflexivity. reflexivity.
Qed.

Lemma detectConflicts_fold (basePrompt brainPrompt personaPrompt : jsstring) :
  detectConflicts (fold_case basePrompt) (fold_case brainPrompt)
    (fold_case personaPrompt)
  = detectConflicts basePrompt brainPrompt personaPrompt.
Proof.
  rewrite !detectConflicts_pairs, !pair_conflicts_fold. reflexivity.
Qed.

(** Conflict detection does not see the case of ASCII letters: texts
    that differ in it only give the same records. *)
Theorem detectConflicts_ignores_case
  (basePrompt brainPrompt personaPrompt otherBase otherBrain otherPersona
     : jsstring) :
  fold_case basePrompt = fold_case otherBase ->
  fold_case brainPrompt = fold_case otherBrain ->
  fold_case personaPrompt = fold_case otherPersona ->
  detectConflicts basePrompt brainPrompt personaPrompt
  = detectConflicts otherBase otherBrain otherPersona.
Proof.
  intros Hb Hr Hp.
  rewrite <- (detectConflicts_fold basePrompt), Hb, Hr, Hp.
  apply detectConflicts_fold.
Qed.

Lemma detectConflicts_ignores_case_witness :
  detectConflicts (lit "Be VERBOSE.") (lit "Stay Formal") (lit "be Brief")
  = detectConflicts (lit "be verbose.") (lit "stay formal") (lit "BE BRIEF").
Proof.
  exact (detectConflicts_ignores_case
           (lit "Be VERBOSE.") (lit "Stay Formal") (lit "be Brief")
           (lit "be verbose.") (lit "stay formal") (lit "BE BRIEF")
           eq_refl eq_refl eq_refl).
Defined.

(** ** Words are found inside longer texts *)

Lemma matches_here_app (ic : bool) (word text rest : jsstring) :
  matches_here ic word text = true ->
  matches_here ic word (text ++ rest) = true.
Proof.
  revert text. induction word as [ | p word IH]; intros [ | c text];
    cbn [matches_here app]; try reflexivity; try discriminate.
  intros H. apply andb_true_iff in H. destruct H as [H1 H2].
  rewrite H1. exact (IH text H2).
Qed.

Lemma matches_at_app (re : RegExp) (text rest : jsstring) :
  matches_at re text = true -> matches_at re (text ++ rest) = true.
Proof.
  unfold matches_at. rewrite !existsb_exists. intros (w & Hw & H).
  exists w. split; [exact Hw | apply matches_here_app, H].
Qed.

Lemma test_unfold (re : RegExp) (text : jsstring) :
  test re text =
    matches_at re text
    || match text with
       | [] => false
       | _ :: text' => test re text'
       end.
Proof. destruct text; reflexivity. Qed.

Lemma test_app_r (re : RegExp) (text rest : jsstring) :
  test re text = true -> test re (text ++ rest) = true.
Proof.
  induction text as [ | c text IH]; rewrite (test_unfold re (_ ++ rest)),
    (test_unfold re); intros H; apply orb_true_iff in H; apply orb_true_iff.
  - destruct H as [H | H]; [|discriminate H].
    left. apply (matches_at_app re [] rest H).
  - destruct H as [H | H]; [left; apply (matches_at_app re (c :: text) rest H)|].
    right. exact (IH H).
Qed.

Lemma test_app_l (re : RegExp) (before text : jsstring) :
  test re text = true -> test re (before ++ text) = true.
Proof.
  intros H. induction before as [ | c before IH]; [exact H|].
  cbn [app]. rewrite test_unfold. rewrite IH. apply orb_true_r.
Qed.

Lemma test_within (re : RegExp) (before text rest : jsstring) :
  test re text = true -> test re (before ++ text ++ rest) = true.
Proof. intros H. apply test_app_l, test_app_r, H. Qed.

Lemma opposed_within (pattern1 pattern2 : RegExp)
  (x1 t1 y1 x2 t2 y2 : jsstring) :
  opposed pattern1 pattern2 t1 t2 = true ->
  opposed pattern1 pattern2 (x1 ++ t1 ++ y1) (x2 ++ t2 ++ y2) = true.
Proof.
  unfold opposed. intros H. apply orb_true_iff in H. apply orb_true_iff.
  destruct H as [H | H]; apply andb_true_iff in H; destruct H as [H1 H2];
    [left | right]; apply andb_true_iff; split; apply test_within; assumption.
Qed.

Lemma within_nonempty (x t y : jsstring) : t <> [] -> x ++ t ++ y <> [].
Proof.
  intros H E. apply app_eq_nil in E. destruct E as [_ E].
  apply app_eq_nil in E. destruct E as [E _]. exact (H E).
Qed.

(** Matching is by substring, so a record never goes away when text is
    added around the texts: every record found for three texts is found
    for any three texts that contain them. *)
Theorem detectConflicts_grows
  (basePrompt brainPrompt personaPrompt x1 y1 x2 y2 x3 y3 : jsstring)
  (c : Conflict) :
  In c (detectConflicts basePrompt brainPrompt personaPrompt) ->
  In c (detectConflicts (x1 ++ basePrompt ++ y1) (x2 ++ brainPrompt ++ y2)
          (x3 ++ personaPrompt ++ y3)).
Proof.
  intros H. apply In_detectConflicts in H.
  destruct H as (n1 & t1 & n2 & t2 & p1 & p2 & ty & Hpair & Hpat & H1 & H2
                 & E & ->).
  apply In_detectConflicts. unfold layer_pairs in *. cbn [In] in Hpair.
  destruct Hpair as [P | [P | [P | []]]]; injection P as <- <- <- <-.
  - exists (lit "base"), (x1 ++ basePrompt ++ y1), (lit "brain"),
      (x2 ++ brainPrompt ++ y2), p1, p2, ty.
    cbn [In]. auto 10 using within_nonempty, opposed_within.
  - exists (lit "base"), (x1 ++ basePrompt ++ y1), (lit "persona"),
      (x3 ++ personaPrompt ++ y3), p1, p2, ty.
    cbn [In]. auto 10 using within_nonempty, opposed_within.
  - exists (lit "brain"), (x2 ++ brainPrompt ++ y2), (lit "persona"),
      (x3 ++ personaPrompt ++ y3), p1, p2, ty.
    cbn [In]. auto 10 using within_nonempty, opposed_within.
Qed.

Lemma detectConflicts_grows_witness :
  In (conflict (lit "speed") (lit "brain") (lit "persona"))
    (detectConflicts [] (lit "fast") (lit "careful"))
  /\ In (conflict (lit "speed") (lit "brain") (lit "persona"))
       (detectConflicts ([] ++ [] ++ lit "Base.")
          (lit "Break" ++ lit "fast" ++ lit " is served.")
          (lit "Be " ++ lit "careful" ++ lit "!")).
Proof.
  assert (H : In (conflict (lit "speed") (lit "brain") (lit "persona"))
                (detectConflicts [] (lit "fast") (lit "careful")))
    by (left; reflexivity).
  split; [exact H|].
  exact (detectConflicts_grows [] (lit "fast") (lit "careful")
           [] (lit "Base.") (lit "Break") (lit " is served.")
           (lit "Be ") (lit "!") _ H).
Defined.

(** The word [informal] contains the word [formal]: two layers that both
    say [informal] are reported as a tone conflict, whatever else they
    say. *)
Theorem informal_conflicts_with_itself
  (x1 y1 x2 y2 other : jsstring) :
  In (conflict (lit "tone") (lit "base") (lit "brain"))
    (detectConflicts (x1 ++ lit "informal" ++ y1) (x2 ++ lit "informal" ++ y2)
       other)
  /\ In (conflict (lit "tone") (lit "base") (lit "persona"))
       (detectConflicts (x1 ++ lit "informal" ++ y1) other
          (x2 ++ lit "informal" ++ y2))
  /\ In (conflict (lit "tone") (lit "brain") (lit "persona"))
       (detectConflicts other (x1 ++ lit "informal" ++ y1)
          (x2 ++ lit "informal" ++ y2)).
Proof.
  assert (N : lit "informal" <> []) by discriminate.
  assert (T : In (conflict (lit "tone") (lit "brain") (lit "persona"))
                (detectConflicts [] (lit "informal") (lit "informal")))
    by (left; reflexivity).
  assert (T' : In (conflict (lit "tone") (lit "base") (lit "persona"))
                 (detectConflicts (lit "informal") [] (lit "informal")))
    by (left; reflexivity).
  assert (T'' : In (conflict (lit "tone") (lit "base") (lit "brain"))
                  (detectConflicts (lit "informal") (lit "informal") []))
    by (left; reflexivity).
  split; [|split].
  - exact (detectConflicts_grows (lit "informal") (lit "informal") []
             x1 y1 x2 y2 [] other _ T'').
  - exact (detectConflicts_grows (lit "informal") [] (lit "informal")
             x1 y1 [] other x2 y2 _ T').
  - exact (detectConflicts_grows [] (lit "informal") (lit "informal")
             [] other x1 y1 x2 y2 _ T).
Qed.

(** ** One layer alone *)

(** A record needs two non-empty layers: when at most one of the three
    texts is non-empty nothing is reported, whatever that text says. *)
Theorem one_layer_no_conflict (basePrompt brainPrompt personaPrompt : jsstring) :
  (basePrompt = [] /\ brainPrompt = [])
  \/ (basePrompt = [] /\ personaPrompt = [])
  \/ (brainPrompt = [] /\ personaPrompt = []) ->
  detectConflicts basePrompt brainPrompt personaPrompt = [].
Proof.
  rewrite detectConflicts_pairs. unfold pair_conflicts.
  intros [[-> ->] | [[-> ->] | [-> ->]]]; cbn [truthy andb];
    rewrite ?andb_false_r; reflexivity.
Qed.

Lemma one_layer_no_conflict_witness :
  detectConflicts (lit "Be verbose yet concise, formal yet casual.") [] [] = [].
Proof.
  exact (one_layer_no_conflict
           (lit "Be verbose yet concise, formal yet casual.") [] []
           (or_intror (or_intror (conj eq_refl eq_refl)))).
Defined.

End Matching.

(** * Part 15. The contextual weights *)

Module Contextual.
Import Spec PromptFusionEngine WeightDetermination Validation Directive.
Local Open Scope float_scope.

Lemma determineContextualWeights_cases (context : Context) :
  determineContextualWeights context
  = {| base := Some 0.5; brain := Some 0.4; persona := Some 0.1 |}
  \/ determineContextualWeights context
     = {| base := Some 0.3; brain := Some 0.2; persona := Some 0.5 |}
  \/ determineContextualWeights context
     = {| base := Some 0.4; brain := Some 0.3; persona := Some 0.3 |}.
Proof.
  unfold determineContextualWeights.
  destruct (strictly_equal (taskType context) (lit "complex_analysis"));
    [left; reflexivity|].
  destruct (strictly_equal (userRole context) (lit "expert"));
    [right; left; reflexivity | right; right; reflexivity].
Qed.

(** Whatever the context, the weights sum to exactly 1 and each of them
    is above zero: both fusion functions accept them, each layer with a
    non-empty text gets its block, and the directive lists all three
    layers. *)
Theorem contextual_weights_valid (context : Context)
  (basePrompt brainPrompt personaPrompt : jsstring) :
  let weights := determineContextualWeights context in
  weightSum weights = 1
  /\ emitted basePrompt (default 0.5 (base weights)) = truthy basePrompt
  /\ emitted brainPrompt (default 0.3 (brain weights)) = truthy brainPrompt
  /\ emitted personaPrompt (default 0.2 (persona weights))
     = truthy personaPrompt
  /\ weightedFusion basePrompt brainPrompt personaPrompt weights
     = Return (trim (numeric_blocks basePrompt brainPrompt personaPrompt
                       weights))
  /\ semanticWeightedFusion basePrompt brainPrompt personaPrompt weights
     = Return (separate (semantic_blocks basePrompt brainPrompt personaPrompt
                           weights)
               ++ directive weights)
  /\ List.length (priority_order weights) = 3%nat.
Proof.
  intros weights.
  assert (W : within_tolerance weights = true
              /\ weightSum weights = 1
              /\ (0 <? default 0.5 (base weights)) = true
              /\ (0 <? default 0.3 (brain weights)) = true
              /\ (0 <? default 0.2 (persona weights)) = true
              /\ List.length (priority_order weights) = 3%nat).
  { subst weights.
    destruct (determineContextualWeights_cases context) as [-> | [-> | ->]];
      repeat split; vm_compute; reflexivity. }
  destruct W as (W & S & Hb & Hr & Hp & L).
  unfold emitted. rewrite Hb, Hr, Hp, !andb_true_r.
  repeat split; try assumption.
  - apply Assembly.weightedFusion_blocks, W.
  - apply semanticWeightedFusion_output, W.
Qed.

(** The task type is looked at before the user role, and the urgency is
    never looked at.  The directive orders the layers as base, brain,
    persona for a complex analysis, as persona, base, brain for an
    expert, and otherwise as base, persona, brain: persona and brain
    weigh the same there, and persona comes first.  No layer is ever
    labelled critical. *)
Theorem contextual_priority (context : Context) :
  let weights := determineContextualWeights context in
  priority_order weights
  = (if strictly_equal (taskType context) (lit "complex_analysis") then
       [ {| name := lit "BASE"; weight := 0.5 |};
         {| name := lit "BRAIN"; weight := 0.4 |};
         {| name := lit "PERSONA"; weight := 0.1 |} ]
     else if strictly_equal (userRole context) (lit "expert") then
       [ {| name := lit "PERSONA"; weight := 0.5 |};
         {| name := lit "BASE"; weight := 0.3 |};
         {| name := lit "BRAIN"; weight := 0.2 |} ]
     else
       [ {| name := lit "BASE"; weight := 0.4 |};
         {| name := lit "PERSONA"; weight := 0.3 |};
         {| name := lit "BRAIN"; weight := 0.3 |} ])
  /\ Forall (fun l => getSemanticEmphasis (weight l) <> CRITICAL)
       (entries weights)
  /\ forall other : Context,
       taskType other = taskType context ->
       userRole other = userRole context ->
       determineContextualWeights other = weights.
Proof.
  intros weights. subst weights. split; [|split].
  - unfold determineContextualWeights.
    destruct (strictly_equal (taskType context) (lit "complex_analysis"));
      [vm_compute; reflexivity|].
    destruct (strictly_equal (userRole context) (lit "expert"));
      vm_compute; reflexivity.
  - destruct (determineContextualWeights_cases context) as [-> | [-> | ->]];
      repeat constructor; vm_compute; discriminate.
  - intros other Ht Hu. unfold determineContextualWeights.
    rewrite Ht, Hu. reflexivity.
Qed.

End Contextual.

(** * Part 16. The message modifiers *)

Module Modifiers.
Import Spec PromptFusionEngine WeightDetermination MessageModifierFusion.
Import Validation Directive WeightResolver.
Local Open Scope float_scope.

(** ** The resolved weights are always accepted *)

Lemma resolved_within (personaId personaContent : option jsstring) :
  within_tolerance (determineWeights personaId personaContent) = true.
Proof.
  rewrite determineWeights_cases.
  destruct (inactive personaId || blank personaContent); vm_compute;
    reflexivity.
Qed.

Lemma resolved_output (basePrompt brainPrompt personaPrompt : jsstring)
  (weights : Weights) :
  weights = brain_dominant \/ weights = persona_dominant ->
  semanticWeightedFusion basePrompt brainPrompt personaPrompt weights
  = Return (separate (semantic_blocks basePrompt brainPrompt personaPrompt
                        weights)
            ++ directive weights).
Proof.
  intros H. apply semanticWeightedFusion_output.
  destruct H as [-> | ->]; vm_compute; reflexivity.
Qed.

Lemma either_dominant (b : bool) :
  (if b then brain_dominant else persona_dominant) = brain_dominant
  \/ (if b then brain_dominant else persona_dominant) = persona_dominant.
Proof. destruct b; [left | right]; reflexivity. Qed.

Lemma truthy_or_else (value : option jsstring) (fallback : jsstring) :
  truthy fallback = true -> truthy (or_else value fallback) = true.
Proof.
  intros H. unfold or_else. destruct value as [v | ]; [|exact H].
  destruct (truthy v) eqn:E; [exact E | exact H].
Qed.

Lemma blank_or_else (value : option jsstring) :
  blank (Some (or_else value [])) = blank value.
Proof. destruct value as [[ | c v] | ]; reflexivity. Qed.

Lemma not_blank_truthy (text : jsstring) :
  blank (Some text) = false -> truthy text = true.
Proof. destruct text; [discriminate | reflexivity]. Qed.

(** The persona block is there exactly when the weights are persona
    dominant and the text is not blank. *)
Lemma persona_emitted (text : jsstring) (rest : bool) :
  emitted text
    (default 0.2
       (persona (if rest || blank (Some text)
                 then brain_dominant else persona_dominant)))
  = negb rest && negb (blank (Some text)).
Proof.
  unfold emitted. destruct rest; cbn [orb negb andb].
  - apply andb_false_r.
  - destruct (blank (Some text)) eqn:B; cbn [negb].
    + apply andb_false_r.
    + rewrite (not_blank_truthy _ B). reflexivity.
Qed.

(** ** The static modifier *)

(** [createStaticFusionModifier] never fails: it returns a modifier that
    puts one system message before the messages it is given.  Its
    content is semantic fusion of the three texts, persona dominant when
    the persona text has something other than white space and brain
    dominant otherwise; a persona text of white space only gets no
    block. *)
Theorem static_modifier (basePrompt brainPrompt : jsstring)
  (personaPrompt : option jsstring) :
  let text := default [] personaPrompt in
  let weights :=
    if blank (Some text) then brain_dominant else persona_dominant in
  exists modifier,
    createStaticFusionModifier basePrompt brainPrompt personaPrompt
    = Return modifier
    /\ (forall messages,
          modifier messages
          = {| role := lit "system";
               content :=
                 separate (semantic_blocks basePrompt brainPrompt text weights)
                 ++ directive weights;
               metadata := None |} :: messages)
    /\ emitted text (default 0.2 (persona weights))
       = negb (blank (Some text)).
Proof.
  intros text weights. unfold createStaticFusionModifier.
  fold text.
  assert (W : determineWeights
                (Some (if truthy text then lit "custom" else lit "default"))
                (Some text) = weights).
  { rewrite determineWeights_cases. subst weights.
    destruct text as [ | c t]; reflexivity. }
  rewrite W.
  rewrite (resolved_output basePrompt brainPrompt text weights)
    by apply either_dominant.
  eexists. split; [reflexivity|]. split; [reflexivity|].
  exact (persona_emitted text false).
Qed.

(** ** The dynamic modifier *)

(** The modifier fails exactly when it fetches the persona and the fetch
    fails: there is a fetcher, the thread id is a non-empty string, and
    the fetcher fails on it.  The failure is the fetcher's. *)
Theorem modifier_fails_with_fetch (options : Options)
  (messages : list Message) (thread_id : option jsstring) (e : exception) :
  createFusionMessageModifier options messages thread_id = Throw e
  <-> exists fetch id,
        getPersonaContent options = Some fetch
        /\ thread_id = Some id /\ truthy id = true /\ fetch id = Throw e.
Proof.
  unfold createFusionMessageModifier.
  destruct (getPersonaContent options) as [fetch | ].
  - destruct thread_id as [id | ]; cbn [default].
    + destruct (truthy id) eqn:T.
      * destruct (fetch id) as [[data | ] | e'] eqn:F.
        -- rewrite resolved_output
             by (rewrite determineWeights_cases; apply either_dominant).
           split; [discriminate|].
           intros (f & i & Hf & Hi & _ & H).
           injection Hf as <-. injection Hi as <-. congruence.
        -- rewrite resolved_output
             by (rewrite determineWeights_cases; apply either_dominant).
           split; [discriminate|].
           intros (f & i & Hf & Hi & _ & H).
           injection Hf as <-. injection Hi as <-. congruence.
        -- split.
           ++ intros H. injection H as <-. exists fetch, id. auto.
           ++ intros (f & i & Hf & Hi & _ & H).
              injection Hf as <-. injection Hi as <-. congruence.
      * rewrite resolved_output
          by (rewrite determineWeights_cases; apply either_dominant).
        split; [discriminate|].
        intros (f & i & _ & Hi & Ht & _). injection Hi as <-. congruence.
    + cbn [truthy].
      rewrite resolved_output
        by (rewrite determineWeights_cases; apply either_dominant).
      split; [discriminate|]. intros (f & i & _ & Hi & _). discriminate Hi.
  - rewrite resolved_output
      by (rewrite determineWeights_cases; apply either_dominant).
    split; [discriminate|]. intros (f & i & Hf & _). discriminate Hf.
Qed.

(** Without a fetcher, without a thread id (or with an empty one), or
    when the fetcher finds no persona, the modifier puts before the
    messages the system message of the default mode: brain dominant
    weights, the base and brain blocks only, and a directive that lists
    BRAIN before BASE. *)
Theorem modifier_without_persona (options : Options)
  (messages : list Message) (thread_id : option jsstring) :
  getPersonaContent options = None
  \/ truthy (default [] thread_id) = false
  \/ (exists fetch,
        getPersonaContent options = Some fetch
        /\ fetch (default [] thread_id) = Return None) ->
  createFusionMessageModifier options messages thread_id
  = Return
      ({| role := lit "system";
          content :=
            separate
              (semantic_block (lit "[BASE LAYER - ") (basePrompt options) 0.4
               ++ semantic_block (lit "[BRAIN CONFIGURATION - ")
                    (or_else (brainPrompt options) []) 0.6)
            ++ directive brain_dominant;
          metadata :=
            Some {| mode := lit "default"; personaId := lit "default";
                    fusionWeights := brain_dominant |} |} :: messages)
  /\ priority_order brain_dominant
     = [ {| name := lit "BRAIN"; weight := 0.6 |};
         {| name := lit "BASE"; weight := 0.4 |} ].
Proof.
  intros H. split; [|vm_compute; reflexivity].
  assert (D : determineWeights (Some (lit "default")) None = brain_dominant)
    by reflexivity.
  assert (R : forall text,
             semanticWeightedFusion (basePrompt options) text [] brain_dominant
             = Return
                 (separate
                    (semantic_block (lit "[BASE LAYER - ") (basePrompt options)
                       0.4
                     ++ semantic_block (lit "[BRAIN CONFIGURATION - ") text 0.6)
                  ++ directive brain_dominant)).
  { intros text. rewrite resolved_output by (left; reflexivity).
    unfold semantic_blocks.
    change (semantic_block (lit "[PERSONA INSTRUCTIONS - ") []
              (default 0.2 (persona brain_dominant))) with (@nil N).
    rewrite app_nil_r. reflexivity. }
  unfold createFusionMessageModifier.
  destruct H as [H | [H | (fetch & H & F)]].
  - rewrite H. cbn [or_else]. rewrite D, R. reflexivity.
  - rewrite H. destruct (getPersonaContent options);
      cbn [or_else]; rewrite D, R; reflexivity.
  - rewrite H. destruct (truthy (default [] thread_id)); [rewrite F|];
      cbn [or_else]; rewrite D, R; reflexivity.
Qed.

Lemma modifier_without_persona_witness :
  let options :=
    {| basePrompt := lit "Use the tools."; brainPrompt := None;
       getPersonaContent := Some (fun _ => Throw TypeError) |} in
  createFusionMessageModifier options [] None
  = Return
      [ {| role := lit "system";
           content :=
             separate
               (semantic_block (lit "[BASE LAYER - ") (lit "Use the tools.") 0.4
                ++ semantic_block (lit "[BRAIN CONFIGURATION - ") [] 0.6)
             ++ directive brain_dominant;
           metadata :=
             Some {| mode := lit "default"; personaId := lit "default";
                     fusionWeights := brain_dominant |} |} ].
Proof.
  intros options.
  exact (proj1 (modifier_without_persona options [] None
                  (or_intror (or_introl eq_refl)))).
Defined.

(** When the fetcher finds a persona, the persona id is the fetched id,
    or [default] when that is missing or empty, and the mode says
    whether it is [default].  The weights are persona dominant only when
    the id is not [default] and the content is not blank; the persona
    block is there in that case only.  So the mode can be [persona] with
    brain dominant weights, when the content is blank. *)
Theorem modifier_with_persona (options : Options) (messages : list Message)
  (fetch : jsstring -> completion (option PersonaData.t)) (id : jsstring)
  (data : PersonaData.t) :
  getPersonaContent options = Some fetch ->
  truthy id = true ->
  fetch id = Return (Some data) ->
  let activePersonaId := or_else (PersonaData.id data) (lit "default") in
  let text := or_else (PersonaData.content data) [] in
  let weights :=
    if string_eqb activePersonaId (lit "default") || blank (Some text)
    then brain_dominant else persona_dominant in
  createFusionMessageModifier options messages (Some id)
  = Return
      ({| role := lit "system";
          content :=
            separate
              (semantic_blocks (basePrompt options)
                 (or_else (brainPrompt options) []) text weights)
            ++ directive weights;
          metadata :=
            Some {| mode :=
                      if string_eqb activePersonaId (lit "default")
                      then lit "default" else lit "persona";
                    personaId := activePersonaId;
                    fusionWeights := weights |} |} :: messages)
  /\ emitted text (default 0.2 (persona weights))
     = negb (string_eqb activePersonaId (lit "default"))
       && negb (blank (Some text)).
Proof.
  intros G T F activePersonaId text weights.
  split; [|exact (persona_emitted text _)].
  unfold createFusionMessageModifier. rewrite G. cbn [default].
  rewrite T, F. fold activePersonaId. fold text.
  assert (W : determineWeights (Some activePersonaId) (PersonaData.content data)
              = weights).
  { rewrite determineWeights_cases. subst weights text. rewrite blank_or_else.
    unfold inactive.
    assert (P : truthy activePersonaId = true)
      by (apply truthy_or_else; reflexivity).
    rewrite P. reflexivity. }
  rewrite W.
  rewrite resolved_output by apply either_dominant. reflexivity.
Qed.

(** A persona with an id and a content of spaces: the mode is [persona],
    the weights are brain dominant. *)
Lemma modifier_with_persona_witness :
  let fetch := fun _ : jsstring =>
    Return (Some {| PersonaData.id := Some (lit "analyst");
                    PersonaData.content := Some (lit "   ") |}) in
  let options :=
    {| basePrompt := lit "Use the tools."; brainPrompt := Some (lit "Workspace");
       getPersonaContent := Some fetch |} in
  createFusionMessageModifier options [] (Some (lit "chat-1"))
  = Return
      [ {| role := lit "system";
           content :=
             separate
               (semantic_blocks (lit "Use the tools.") (lit "Workspace")
                  (lit "   ") brain_dominant)
             ++ directive brain_dominant;
           metadata :=
             Some {| mode := lit "persona"; personaId := lit "analyst";
                     fusionWeights := brain_dominant |} |} ].
Proof.
  intros fetch options.
  exact (proj1 (modifier_with_persona options [] fetch (lit "chat-1")
                  {| PersonaData.id := Some (lit "analyst");
                     PersonaData.content := Some (lit "   ") |}
                  eq_refl eq_refl eq_refl)).
Defined.

End Modifiers.

(** * Part 17. The examples *)

Module Examples.
Import Spec PromptFusionEngine ClaudeExample AgentExample.
Import Validation Directive.
Local Open Scope float_scope.

Lemma dominant_output (basePrompt brainPrompt personaPrompt : jsstring)
  (persona_active : bool) :
  let weights := if persona_active then persona_dominant else brain_dominant in
  semanticWeightedFusion basePrompt brainPrompt personaPrompt weights
  = Return (separate (semantic_blocks basePrompt brainPrompt personaPrompt
                        weights)
            ++ directive weights).
Proof.
  intros weights. apply semanticWeightedFusion_output.
  subst weights. destruct persona_active; vm_compute; reflexivity.
Qed.

(** ** The fused system prompt and the fused instructions *)

(** [createFusedSystemPrompt] and [createFusedInstructions] are the same
    function and never fail.  The weights are persona dominant when the
    flag is set and the persona text is not empty, brain dominant
    otherwise, and the persona block is there in the first case only:
    a persona text without the flag is left out. *)
Theorem fused_prompt (base brain : jsstring) (personaText : option jsstring)
  (flag : option bool) :
  let text := default [] personaText in
  let active := default false flag && truthy text in
  let weights := if active then persona_dominant else brain_dominant in
  createFusedSystemPrompt base brain personaText flag
  = Return (separate (semantic_blocks base brain text weights)
            ++ directive weights)
  /\ createFusedInstructions base brain personaText flag
     = createFusedSystemPrompt base brain personaText flag
  /\ emitted text (default 0.2 (persona weights)) = active.
Proof.
  intros text active weights. split; [|split].
  - unfold createFusedSystemPrompt. fold text. fold active.
    exact (dominant_output base brain text active).
  - reflexivity.
  - subst weights active. unfold emitted.
    destruct (default false flag), (truthy text); reflexivity.
Qed.

(** ** The modifier of the agent example *)

(** [createFusionModifier] always fetches the persona, for the chat
    [default] when there is no thread id, and fails exactly when the
    fetch fails.  Otherwise it puts one system message before the
    messages: persona dominant fusion when the fetched id is not
    [default] and the fetched content is not empty, brain dominant
    fusion otherwise. *)
Theorem agent_modifier (M : Type) (basePrompt brainPrompt : jsstring)
  (getPersona :
     jsstring -> completion (option (option jsstring * option jsstring)))
  (messages : list M) (thread_id : option jsstring) :
  let chatId := or_else thread_id (lit "default") in
  (forall e,
     createFusionModifier basePrompt brainPrompt getPersona messages thread_id
     = Throw e
     <-> getPersona chatId = Throw e)
  /\ (forall personaData,
        getPersona chatId = Return personaData ->
        let text :=
          match personaData with
          | Some (_, content) => or_else content []
          | None => []
          end in
        let personaId :=
          match personaData with
          | Some (id, _) => or_else id (lit "default")
          | None => lit "default"
          end in
        let weights :=
          if negb (string_eqb personaId (lit "default")) && truthy text
          then persona_dominant else brain_dominant in
        createFusionModifier basePrompt brainPrompt getPersona messages
          thread_id
        = Return
            (SystemMessage
               (separate (semantic_blocks basePrompt brainPrompt text weights)
                ++ directive weights)
             :: List.map Given messages)).
Proof.
  intros chatId.
  assert (R : forall personaData,
             getPersona chatId = Return personaData ->
             let text :=
               match personaData with
               | Some (_, content) => or_else content []
               | None => []
               end in
             let personaId :=
               match personaData with
               | Some (id, _) => or_else id (lit "default")
               | None => lit "default"
               end in
             let weights :=
               if negb (string_eqb personaId (lit "default")) && truthy text
               then persona_dominant else brain_dominant in
             createFusionModifier basePrompt brainPrompt getPersona messages
               thread_id
             = Return
                 (SystemMessage
                    (separate
                       (semantic_blocks basePrompt brainPrompt text weights)
                     ++ directive weights)
                  :: List.map Given messages)).
  { intros personaData G text personaId weights.
    pose proof (dominant_output basePrompt brainPrompt text
                  (negb (string_eqb personaId (lit "default")) && truthy text))
      as D.
    cbv zeta in D. fold weights in D.
    unfold createFusionModifier. fold chatId. rewrite G. cbv zeta.
    change (semanticWeightedFusion basePrompt brainPrompt text weights)
      with (semanticWeightedFusion basePrompt brainPrompt text weights) in D.
    match goal with
    | |- match ?f with Return _ => _ | Throw _ => _ end = _ =>
        change f
          with (semanticWeightedFusion basePrompt brainPrompt text weights)
    end.
    rewrite D. reflexivity. }
  split; [|exact R].
  intros e. destruct (getPersona chatId) as [personaData | e'] eqn:G.
  - rewrite (R personaData eq_refl). split; discriminate.
  - unfold createFusionModifier. fold chatId. rewrite G.
    split; intros H; injection H as <-; reflexivity.
Qed.

(** ** A persona text of white space *)

Lemma differ_at_end (i : nat) (a b : code_unit) (x1 x2 d1 d2 : jsstring) :
  nth_error (rev d1) i = Some a -> nth_error (rev d2) i = Some b -> a <> b ->
  x1 ++ d1 <> x2 ++ d2.
Proof.
  intros H1 H2 N E.
  apply (f_equal (fun l => nth_error (rev l) i)) in E.
  rewrite !rev_app_distr in E.
  rewrite !nth_error_app1 in E
    by (apply nth_error_Some; congruence).
  congruence.
Qed.

Lemma directives_differ (x1 x2 : jsstring) :
  x1 ++ directive brain_dominant <> x2 ++ directive persona_dominant.
Proof.
  apply (differ_at_end 69 52%N 50%N).
  - vm_compute. reflexivity.
  - vm_compute. reflexivity.
  - discriminate.
Qed.

(** The callers do not agree on a persona text that is white space only.
    The static modifier resolves the weights with [determineWeights],
    which trims: brain dominant.  [createFusedSystemPrompt], with its
    flag set, only asks that the text is not empty: persona dominant.
    The two system prompts differ. *)
Theorem blank_persona_disagreement (base brain text : jsstring) :
  truthy text = true -> blank (Some text) = true ->
  createFusedSystemPrompt base brain (Some text) (Some true)
  = Return (separate (semantic_blocks base brain text persona_dominant)
            ++ directive persona_dominant)
  /\ exists modifier,
       MessageModifierFusion.createStaticFusionModifier base brain (Some text)
       = Return modifier
       /\ forall messages, exists m,
            modifier messages = m :: messages
            /\ MessageModifierFusion.content m
               = separate (semantic_blocks base brain text brain_dominant)
                 ++ directive brain_dominant
            /\ Return (MessageModifierFusion.content m)
               <> createFusedSystemPrompt base brain (Some text) (Some true).
Proof.
  intros T B.
  assert (P : createFusedSystemPrompt base brain (Some text) (Some true)
              = Return (separate (semantic_blocks base brain text
                                    persona_dominant)
                        ++ directive persona_dominant)).
  { unfold createFusedSystemPrompt. cbn [default andb]. rewrite T.
    exact (dominant_output base brain text true). }
  split; [exact P|].
  unfold MessageModifierFusion.createStaticFusionModifier. cbn [default].
  rewrite T, WeightResolver.determineWeights_cases.
  cbn [blank] in B |- *. rewrite B, orb_true_r.
  rewrite (dominant_output base brain text false : _ = Return _).
  eexists. split; [reflexivity|].
  intros messages. eexists. split; [reflexivity|].
  cbn [MessageModifierFusion.content]. split; [reflexivity|].
  rewrite P. intros E. injection E as E. revert E. apply directives_differ.
Qed.

Lemma blank_persona_disagreement_witness :
  createFusedSystemPrompt (lit "Base") (lit "Brain") (Some (lit " "))
    (Some true)
  = Return (separate (semantic_blocks (lit "Base") (lit "Brain") (lit " ")
                        persona_dominant)
            ++ directive persona_dominant).
Proof.
  exact (proj1 (blank_persona_disagreement (lit "Base") (lit "Brain") (lit " ")
                  eq_refl eq_refl)).
Defined.

(** ** The chat *)

Lemma truthy_persona (p : PersonaType) : truthy (personaSystemPrompts p) = true.
Proof. destruct p; reflexivity. Qed.

Lemma chat_system_prompt (p : option PersonaType) :
  createFusedSystemPrompt baseSystemPrompt brainSystemPrompt
    (Some match p with
          | Some p => personaSystemPrompts p
          | None => []
          end)
    (Some match p with
          | Some _ => true
          | None => false
          end)
  = Return (system_prompt p).
Proof.
  unfold createFusedSystemPrompt, system_prompt. cbn [default].
  destruct p as [p | ].
  - cbn [andb]. rewrite truthy_persona.
    exact (dominant_output baseSystemPrompt brainSystemPrompt
             (personaSystemPrompts p) true).
  - cbn [andb].
    exact (dominant_output baseSystemPrompt brainSystemPrompt [] false).
Qed.

(** [send] fails only if the provider fails: the fusion of the built-in
    prompts never does.  The provider is given the system prompt of the
    current persona and the history with the user's turn at its end.  If
    it replies, the assistant's turn is added and the reply returned; if
    it fails, the user's turn stays in the history. *)
Theorem send_reaches_provider
  (create : jsstring -> list ChatMessage -> completion jsstring)
  (userMessage : jsstring) (this : ClaudeFusionChat) :
  let history := messages this ++ [user_turn userMessage] in
  send create userMessage this
  = match create (system_prompt (currentPersona this)) history with
    | Return reply =>
        ({| messages := history ++ [assistant_turn reply];
            currentPersona := currentPersona this |}, Return reply)
    | Throw e =>
        ({| messages := history; currentPersona := currentPersona this |},
         Throw e)
    end.
Proof.
  intros history. unfold send. cbn [currentPersona messages].
  rewrite chat_system_prompt. reflexivity.
Qed.



Lemma alternating_even (l : list ChatMessage) :
  (alternating l -> Nat.even (List.length l) = true)
  /\ (forall x, alternating (x :: l) -> Nat.even (List.length l) = false).
Proof.
  induction l as [ | y l IH].
  - split; [reflexivity | intros x []].
  - destruct IH as [IH1 IH2]. split.
    + intros H. cbn [List.length]. rewrite Nat.even_succ, <- Nat.negb_even.
      rewrite (IH2 y H). reflexivity.
    + intros x (_ & _ & H). cbn [List.length].
      rewrite Nat.even_succ, <- Nat.negb_even, (IH1 H). reflexivity.
Qed.



(** A send that fails is not undone: the user's turn stays at the end of
    the history, which is no longer a sequence of complete exchanges,
    and the persona is kept. *)
Theorem failed_send_keeps_turn
  (create : jsstring -> list ChatMessage -> completion jsstring)
  (userMessage : jsstring) (this : ClaudeFusionChat) (e : exception) :
  alternating (getHistory this) ->
  create (system_prompt (currentPersona this))
    (getHistory this ++ [user_turn userMessage]) = Throw e ->
  let after := fst (send create userMessage this) in
  snd (send create userMessage this) = Throw e
  /\ getHistory after = getHistory this ++ [user_turn userMessage]
  /\ currentPersona after = currentPersona this
  /\ ~ alternating (getHistory after).
Proof.
  intros A F after. unfold getHistory in *.
  assert (S : send create userMessage this
              = ({| messages := messages this ++ [user_turn userMessage];
                    currentPersona := currentPersona this |}, Throw e)).
  { unfold send. cbn [currentPersona messages].
    rewrite chat_system_prompt.
    change {| role := lit "user"; content := userMessage |}
      with (user_turn userMessage).
    rewrite F. reflexivity. }
  subst after. rewrite S. cbn [fst snd messages currentPersona].
  repeat split.
  intros H. apply (proj1 (alternating_even _)) in H.
  rewrite length_app, Nat.add_comm in H. cbn [List.length Nat.add] in H.
  rewrite Nat.even_succ, <- Nat.negb_even in H.
  rewrite (proj1 (alternating_even _) A) in H. discriminate H.
Qed.

Lemma failed_send_keeps_turn_witness :
  let create := fun (_ : jsstring) (_ : list ChatMessage) =>
    @Throw jsstring TypeError in
  getHistory (fst (send create (lit "Hello") new_chat))
  = [user_turn (lit "Hello")].
Proof.
  intros create.
  exact (proj1 (proj2 (failed_send_keeps_turn create (lit "Hello") new_chat
                         TypeError I eq_refl))).
Defined.

End Examples.

(** * Part 18. The rules on their own *)

Module Rules.
Import Spec PromptFusionEngine Directive.
Local Open Scope float_scope.

(** [generateConflictResolutionRules] does not validate the weights.
    When none of them is above zero it still returns the heading and the
    closing sentence, with no entry between them. *)
Theorem rules_without_entries (weights : Weights) :
  (0 <? default 0.2 (persona weights)) = false ->
  (0 <? default 0.3 (brain weights)) = false ->
  (0 <? default 0.5 (base weights)) = false ->
  priority_order weights = []
  /\ generateConflictResolutionRules weights
     = LF ++ lit "[CONFLICT RESOLUTION RULES]" ++ LF
       ++ lit "When instructions conflict, apply this priority order:" ++ LF
       ++ LF
       ++ lit "Always prioritize higher-weighted layers when resolving conflicts."
       ++ LF.
Proof.
  intros Hp Hr Hb.
  assert (P : priority_order weights = []).
  { unfold priority_order, entries, positive_weight. cbn [filter weight].
    rewrite Hp, Hr, Hb. reflexivity. }
  split; [exact P|].
  rewrite rules_directive. unfold directive. rewrite P.
  cbn [numbered app]. rewrite <- ?app_assoc. reflexivity.
Qed.

Lemma rules_without_entries_witness :
  let weights :=
    {| base := Some (-1); brain := Some 0; persona := Some nan |} in
  priority_order weights = [].
Proof.
  intros weights.
  exact (proj1 (rules_without_entries weights eq_refl eq_refl eq_refl)).
Defined.

End Rules.
